(** * Governance hooks of the intent layer: HookEngine and SelectActiveIntentTool

    A shallow embedding of [src/hooks/HookEngine.ts] and of the
    select-intent tool ([SelectActiveIntentTool.execute]), followed by the
    properties the design document states about them.

    Conventions of the embedding.
    - A JavaScript value of type [any] read from [params] or [result] is a
      [jsval]; a property that is absent reads as [JUndefined].
    - [async] functions run to completion in sequence; a computation is a
      function from the state of the process and its surroundings to an
      outcome (a value or a thrown error) and the state after it.
    - The Node and npm libraries the code calls ([path], [yaml], [crypto],
      the git helper) are the fields of a [Host]; every theorem holds for
      every host.  [Posix] and [Sha256] give the concrete host used at
      concrete inputs.
    - The file system is a finite map from paths to texts; [readFile] fails
      on a missing file only.  [appendFile] fails on the files the state
      lists as unwritable (storage full, no permission) and writes nothing
      then.  The lines appended to a file are kept as the records they
      serialize.  Directories are not modelled: [fs.mkdir] in [traceAction]
      has no effect the code can observe, its errors being discarded. *)

From Stdlib Require Import ZArith List Ascii String Bool Lia.
From stdpp Require Import base option strings gmap.

Open Scope string_scope.

(** ** JavaScript values and strings *)

Module Js.

(** The values a tool parameter can hold.  Numbers are the integral ones
    and NaN: the code only tests them for truthiness and prints them. *)
Inductive jsval : Type :=
  | JUndefined
  | JNull
  | JBool (b : bool)
  | JNum (n : Z)
  | JNaN
  | JStr (s : string).

#[global] Instance jsval_eq_dec : EqDecision jsval.
Proof. solve_decision. Defined.

(** ToBoolean: [if (v)], [!v], [v || w]. *)
Definition truthy (v : jsval) : bool :=
  match v with
  | JUndefined | JNull | JNaN => false
  | JBool b => b
  | JNum n => negb (Z.eqb n 0)
  | JStr s => negb (String.eqb s "")
  end.

(** [a || b] *)
Definition or_else (a b : jsval) : jsval := if truthy a then a else b.

(** Decimal digits of a natural number, most significant first. *)
Fixpoint digits_fuel (fuel n : nat) (acc : string) : string :=
  match fuel with
  | O => acc
  | S fuel' =>
      let d := ascii_of_nat (48 + n mod 10) in
      if Nat.ltb n 10 then String d acc
      else digits_fuel fuel' (n / 10) (String d acc)
  end.

Definition nat_to_string (n : nat) : string := digits_fuel (S n) n "".

(** ToString, as a template literal [`${v}`] and [String.prototype.includes]
    apply it. *)
Definition to_string (v : jsval) : string :=
  match v with
  | JUndefined => "undefined"
  | JNull => "null"
  | JBool true => "true"
  | JBool false => "false"
  | JNum n => if Z.ltb n 0 then "-" ++ nat_to_string (Z.abs_nat n)
              else nat_to_string (Z.abs_nat n)
  | JNaN => "NaN"
  | JStr s => s
  end.

(** [s.startsWith(p)] *)
Definition startsWith (s p : string) : bool := String.prefix p s.

(** [s.includes(sub)]: [sub] occurs somewhere in [s]. *)
Fixpoint includes (s sub : string) : bool :=
  String.prefix sub s ||
  match s with
  | EmptyString => false
  | String _ s' => includes s' sub
  end.

(** [xs.join(sep)] *)
Fixpoint join (sep : string) (xs : list string) : string :=
  match xs with
  | [] => ""
  | [x] => x
  | x :: rest => x ++ sep ++ join sep rest
  end.

Definition hex_digit (n : nat) : ascii :=
  if Nat.ltb n 10 then ascii_of_nat (48 + n) else ascii_of_nat (87 + n).

(** One character of a string inside [JSON.stringify]. *)
Definition json_escape_char (c : ascii) : string :=
  let n := nat_of_ascii c in
  if Nat.eqb n 34 then "\" ++ String c ""
  else if Nat.eqb n 92 then "\\"
  else if Nat.eqb n 8 then "\b"
  else if Nat.eqb n 9 then "\t"
  else if Nat.eqb n 10 then "\n"
  else if Nat.eqb n 12 then "\f"
  else if Nat.eqb n 13 then "\r"
  else if Nat.ltb n 32 then
    "\u00" ++ String (hex_digit (n / 16)) (String (hex_digit (n mod 16)) "")
  else String c "".

Fixpoint json_escape (s : string) : string :=
  match s with
  | EmptyString => ""
  | String c s' => json_escape_char c ++ json_escape s'
  end.

Definition json_quote (s : string) : string :=
  String (ascii_of_nat 34) (json_escape s) ++ String (ascii_of_nat 34) "".

(** [JSON.stringify(xs)] for an array of strings. *)
Definition JSON_stringify_strings (xs : list string) : string :=
  "[" ++ join "," (map json_quote xs) ++ "]".

(** A thrown [Error] object: its class name and its [message]. *)
Record js_error : Type := mkError { err_name : string; message : string }.

#[global] Instance js_error_eq_dec : EqDecision js_error.
Proof. solve_decision. Defined.

Definition new_Error (msg : string) : js_error := mkError "Error" msg.
Definition new_TypeError (msg : string) : js_error := mkError "TypeError" msg.

(** What an awaited call leaves: its value, or the error it threw. *)
Inductive outcome (A : Type) : Type :=
  | Ok (a : A)
  | Throw (e : js_error).
Arguments Ok {A} a.
Arguments Throw {A} e.

End Js.
Export Js.

(** ** The data of the hook engine *)

(** [interface ActiveIntent] *)
Inductive IntentStatus : Type := pending | in_progress | completed.

Record ActiveIntent : Type := mkIntent {
  id : string;
  name : string;
  status : IntentStatus;
  owned_scope : list string;
  constraints : list string;
  acceptance_criteria : list string
}.

(** What [parseYaml(content)] returns when it does not throw.  The code
    casts it to [ActiveIntent[]] and then asks [Array.isArray]: a document
    that is a sequence is taken at the declared element type, any other
    document (a mapping, a scalar, null) is [YamlOther]. *)
Inductive YamlDoc : Type :=
  | YamlSeq (intents : list ActiveIntent)
  | YamlOther.

(** The two fields of [Task] the hooks read. *)
Record Task : Type := mkTask { taskId : string; cwd : string }.

(** [params: any]: the properties the hooks and the tool read. *)
Record Params : Type := mkParams {
  p_path : jsval;
  p_content : jsval;
  p_intent_id : jsval
}.

(** The value of [getGitMetadata], attached to a trace entry as it is. *)
Record GitMetadata : Type := mkGit { branch : string; commit : string }.

(** [traceEntry] of [traceAction]; [fs.appendFile] writes its
    [JSON.stringify] and a newline, one line per entry. *)
Record TraceEntry : Type := mkTrace {
  timestamp : string;
  intent_id : jsval;
  tool : string;
  params_path : jsval;
  params_content_hash : string;
  result_summary : string;
  file_hash : string;
  git : GitMetadata
}.

Inductive LogLevel : Type := LevelLog | LevelWarn | LevelError.

(** One call of [console.log], [console.warn] or [console.error]: the
    text, and the error object passed as second argument if any. *)
Record LogLine : Type := mkLog {
  level : LogLevel;
  text : string;
  attached : option js_error
}.

(** The libraries the hooks call. *)
Record Host : Type := mkHost {
  (** [path.join(...segments)] *)
  path_join : list string -> string;
  (** [path.relative(from, to)] on two strings *)
  path_relative : string -> string -> string;
  (** [parse] of the [yaml] package; it throws on malformed input *)
  parseYaml : string -> outcome YamlDoc;
  (** [crypto.createHash('sha256').update(s).digest('hex')] *)
  sha256_hex : string -> string;
  (** [getGitMetadata(cwd)] of [utils/git]; the helper is not among the
      sources, so it may return or throw *)
  getGitMetadata : string -> outcome GitMetadata
}.

(** The state a hook runs in: the engine's registry, the files it reads,
    the lines it appended, the console, the clock, what the tool's
    callbacks [pushToolResult] and [handleError] received, and the files
    the storage refuses to append to, each with the error [fs.appendFile]
    throws on it. *)
Record State : Type := mkState {
  activeIntents : gmap string jsval;
  files : gmap string string;
  appended : gmap string (list TraceEntry);
  console : list LogLine;
  now : string;
  toolResults : list string;
  handledErrors : list (string * js_error);
  unwritable : gmap string js_error
}.

(** ** Computations: state passing with exceptions *)

Definition M (A : Type) : Type := State -> outcome A * State.

Definition ret {A} (a : A) : M A := fun st => (Ok a, st).

Definition bind {A B} (m : M A) (k : A -> M B) : M B :=
  fun st =>
    match m st with
    | (Ok a, st') => k a st'
    | (Throw e, st') => (Throw e, st')
    end.

Definition throw {A} (e : js_error) : M A := fun st => (Throw e, st).

(** [try { body } catch (error) { handler }] *)
Definition try_catch {A} (body : M A) (handler : js_error -> M A) : M A :=
  fun st =>
    match body st with
    | (Ok a, st') => (Ok a, st')
    | (Throw e, st') => handler e st'
    end.

(** An awaited library call that may have thrown. *)
Definition lift {A} (o : outcome A) : M A := fun st => (o, st).

Notation "'let!' x ':=' m 'in' k" := (bind m (fun x => k))
  (at level 10, x name, m at level 100, k at level 200,
   format "'[v' 'let!'  x  ':='  m  'in' '/' k ']'").
Notation "'do!' m 'in' k" := (bind m (fun _ => k))
  (at level 10, m at level 100, k at level 200,
   format "'[v' 'do!'  m  'in' '/' k ']'").

Definition console_emit (l : LogLevel) (msg : string) (e : option js_error) : M unit :=
  fun st =>
    (Ok tt,
     mkState (activeIntents st) (files st) (appended st)
             (console st ++ [mkLog l msg e])%list
             (now st) (toolResults st) (handledErrors st) (unwritable st)).

Definition console_log (msg : string) : M unit := console_emit LevelLog msg None.
Definition console_warn (msg : string) : M unit := console_emit LevelWarn msg None.
Definition console_error (msg : string) (e : js_error) : M unit :=
  console_emit LevelError msg (Some e).

(** [fileExistsAtPath(p)] of [utils/fs] *)
Definition fileExistsAtPath (p : string) : M bool :=
  fun st => (Ok (bool_decide (is_Some (files st !! p))), st).

(** [fs.readFile(p, "utf-8")] *)
Definition readFile (p : string) : M string :=
  fun st =>
    match files st !! p with
    | Some content => (Ok content, st)
    | None =>
        (Throw (new_Error ("ENOENT: no such file or directory, open '" ++ p ++ "'")), st)
    end.

(** [fs.appendFile(p, JSON.stringify(entry) + "\n")]: it throws, and
    writes nothing, when the storage refuses the file. *)
Definition appendFile (p : string) (entry : TraceEntry) : M unit :=
  fun st =>
    match unwritable st !! p with
    | Some e => (Throw e, st)
    | None =>
        (Ok tt,
         mkState (activeIntents st) (files st)
                 (<[p := (default [] (appended st !! p) ++ [entry])%list]>
                    (appended st))
                 (console st) (now st) (toolResults st) (handledErrors st)
                 (unwritable st))
    end.

(** [this.activeIntents.get(taskId)]; a missing key reads as [undefined]. *)
Definition activeIntents_get (taskId : string) : M jsval :=
  fun st => (Ok (default JUndefined (activeIntents st !! taskId)), st).

(** [this.activeIntents.set(taskId, v)] *)
Definition activeIntents_set (taskId : string) (v : jsval) : M unit :=
  fun st =>
    (Ok tt,
     mkState (<[taskId := v]> (activeIntents st)) (files st) (appended st)
             (console st) (now st) (toolResults st) (handledErrors st) (unwritable st)).

(** [new Date().toISOString()] *)
Definition Date_now_ISO : M string := fun st => (Ok (now st), st).

(** ** HookEngine *)

Module HookEngine.
Section WithHost.

Variable host : Host.

(** The callback of [owned_scope.some(...)] in [enforceScope]. *)
Definition scopeMatches (relativePath filePath scope : string) : bool :=
  if String.eqb scope relativePath || String.eqb scope filePath then true
  else if startsWith relativePath scope || startsWith filePath scope then true
  else false.

(** [const isAllowed = intent.owned_scope.some(...)] *)
Definition isAllowed (scopes : list string) (relativePath filePath : string) : bool :=
  existsb (scopeMatches relativePath filePath) scopes.

(** The message of the error thrown when [isAllowed] is false. *)
Definition scopeViolationMessage (intentId relativePath : string)
    (scopes : list string) : string :=
  "Scope Violation: Intent '" ++ intentId ++ "' is not authorized to edit '"
  ++ relativePath ++ "'. Owned scopes: " ++ JSON_stringify_strings scopes.

(** [intents.find(i => i.id === intentId)]; [===] with a value that is
    not a string is false. *)
Definition findIntent (intents : list ActiveIntent) (intentId : jsval)
    : option ActiveIntent :=
  List.find (fun i => bool_decide (JStr (id i) = intentId)) intents.

Definition intentsPathOf (task : Task) : string :=
  path_join host [cwd task; ".orchestration"; "active_intents.yaml"].

Definition traceFileOf (task : Task) : string :=
  path_join host [cwd task; ".orchestration"; "agent_trace.jsonl"].

(** The body of the [try] block of [enforceScope]. *)
Definition enforceScope_body (intentId filePath : jsval) (task : Task) : M unit :=
  let! content := readFile (intentsPathOf task) in
  let! intents := lift (parseYaml host content) in
  let intent :=
    match intents with
    | YamlSeq l => findIntent l intentId
    | YamlOther => None
    end in
  match intent with
  | None =>
      console_warn ("[HookEngine] Intent " ++ to_string intentId ++ " not found in yaml")
  | Some intent =>
      match filePath with
      | JStr filePath =>
          let relativePath := path_relative host (cwd task) filePath in
          if isAllowed (owned_scope intent) relativePath filePath then ret tt
          else throw (new_Error
                 (scopeViolationMessage (to_string intentId) relativePath
                    (owned_scope intent)))
      | _ =>
          (* path.relative validates its arguments *)
          throw (new_TypeError
                   "The 'to' argument must be of type string.")
      end
  end.

Definition enforceScope (intentId filePath : jsval) (task : Task) : M unit :=
  let! ex := fileExistsAtPath (intentsPathOf task) in
  if negb ex then ret tt
  else
    try_catch (enforceScope_body intentId filePath task)
      (fun error =>
         if startsWith (message error) "Scope Violation" then throw error
         else console_error "[HookEngine] Error enforcing scope:" error).

Definition preToolExecution (toolName : string) (params : Params) (task : Task)
    : M unit :=
  do! console_log ("[HookEngine] Pre-tool execution: " ++ toolName) in
  let! intentId := activeIntents_get (taskId task) in
  if String.eqb toolName "write_to_file" then
    if negb (truthy intentId) then
      console_warn "[HookEngine] WRITE attempted without Active Intent"
    else enforceScope intentId (p_path params) task
  else ret tt.

Definition traceAction (toolName : string) (params : Params) (result : jsval)
    (task : Task) : M unit :=
  let! intentId := activeIntents_get (taskId task) in
  if negb (truthy intentId) then ret tt
  else
    let traceFile := traceFileOf task in
    (* fs.mkdir of the directory, every failure of it discarded *)
    let! contentHash :=
      match or_else (p_content params) (JStr "") with
      | JStr s => ret (sha256_hex host s)
      | _ => throw (new_TypeError
               "The 'data' argument must be of type string or an instance of Buffer, TypedArray, or DataView.")
      end in
    let! ts := Date_now_ISO in
    let! gitMetadata := lift (getGitMetadata host (cwd task)) in
    let traceEntry :=
      {| timestamp := ts;
         intent_id := intentId;
         tool := toolName;
         params_path := p_path params;
         params_content_hash := contentHash;
         result_summary :=
           match result with
           | JStr r => substring 0 100 r
           | _ => "Result too large/complex"
           end;
         file_hash := contentHash;
         git := gitMetadata |} in
    appendFile traceFile traceEntry.

Definition postToolExecution (toolName : string) (params : Params) (result : jsval)
    (task : Task) : M unit :=
  do! console_log ("[HookEngine] Post-tool execution: " ++ toolName) in
  if String.eqb toolName "select_active_intent" then
    if truthy (p_intent_id params) then
      do! activeIntents_set (taskId task) (p_intent_id params) in
      console_log ("[HookEngine] Set active intent " ++ to_string (p_intent_id params)
                   ++ " for task " ++ taskId task)
    else ret tt
  else if String.eqb toolName "write_to_file" then
    traceAction toolName params result task
  else ret tt.

End WithHost.
End HookEngine.

(** ** SelectActiveIntentTool *)

Module SelectActiveIntentTool.
Section WithHost.

Variable host : Host.

Definition name : string := "select_active_intent".

(** The line feed of a template literal. *)
Definition nl : string := String (ascii_of_nat 10) EmptyString.

(** [callbacks.pushToolResult(block)] *)
Definition pushToolResult (block : string) : M unit :=
  fun st =>
    (Ok tt,
     mkState (activeIntents st) (files st) (appended st) (console st) (now st)
             (toolResults st ++ [block])%list (handledErrors st) (unwritable st)).

(** [callbacks.handleError(action, error)] *)
Definition handleError (action : string) (error : js_error) : M unit :=
  fun st =>
    (Ok tt,
     mkState (activeIntents st) (files st) (appended st) (console st) (now st)
             (toolResults st) (handledErrors st ++ [(action, error)])%list (unwritable st)).

(** The block the tool builds from the file it read. *)
Definition contextBlockOf (content : string) : string :=
  "<intent_context>" ++ nl ++ content ++ nl ++ "</intent_context>".

(** The body of the [try] block of [execute]. *)
Definition execute_body (params : Params) (task : Task) : M unit :=
  let intent_id := p_intent_id params in
  let intentsPath := HookEngine.intentsPathOf host task in
  let! ex := fileExistsAtPath intentsPath in
  if negb ex then
    throw (new_Error
      "No active intents found. Please contact the administrator to initialize .orchestration/active_intents.yaml")
  else
    let! content := readFile intentsPath in
    let contextBlock := contextBlockOf content in
    if negb (includes content (to_string intent_id)) then
      throw (new_Error ("Intent ID " ++ to_string intent_id
                        ++ " not found in active_intents.yaml"))
    else
      do! pushToolResult contextBlock in
      HookEngine.postToolExecution host name params (JStr contextBlock) task.

Definition execute (params : Params) (task : Task) : M unit :=
  try_catch (execute_body params task)
    (fun error => handleError "selecting active intent" error).

End WithHost.
End SelectActiveIntentTool.

(** ** BaseTool *)

Module BaseTool.
Section WithHost.

Variable host : Host.

(** Modelled from the spec: [BaseTool.handle] ([src/core/tools/BaseTool.ts]
    is not among the sources).  Every mutating tool calls the pre-action
    hook before its effect and the post-action hook after it, and a denial
    of the pre-action hook aborts the action before any effect; the three
    awaited calls are the ones IMPLEMENTATION_REPORT.md quotes in 5.2.
    [execute] is the tool's own effect and returns the execution result. *)
Definition handle (toolName : string) (execute : Params -> Task -> M jsval)
    (params : Params) (task : Task) : M unit :=
  do! HookEngine.preToolExecution host toolName params task in
  let! executionResult := execute params task in
  HookEngine.postToolExecution host toolName params executionResult task.

End WithHost.
End BaseTool.

(** ** A concrete host: Node's [path] on POSIX *)

Module Posix.

Definition slash : ascii := ascii_of_nat 47.

Definition isAbsolute (p : string) : bool :=
  match p with
  | String c _ => Ascii.eqb c slash
  | EmptyString => false
  end.

Fixpoint endsWithSlash (p : string) : bool :=
  match p with
  | EmptyString => false
  | String c EmptyString => Ascii.eqb c slash
  | String _ p' => endsWithSlash p'
  end.

(** [p.split("/")] *)
Fixpoint split_slash (p : string) : list string :=
  match p with
  | EmptyString => [""]
  | String c p' =>
      if Ascii.eqb c slash then "" :: split_slash p'
      else match split_slash p' with
           | x :: xs => String c x :: xs
           | [] => [String c ""]
           end
  end.

(** [normalizeString]: drop empty and [.] segments, resolve [..] against
    the segment before it; [stack] holds the segments kept, last first. *)
Fixpoint normalizeSegments (allowAboveRoot : bool) (segs stack : list string)
    : list string :=
  match segs with
  | [] => rev stack
  | s :: rest =>
      if String.eqb s "" || String.eqb s "." then
        normalizeSegments allowAboveRoot rest stack
      else if String.eqb s ".." then
        match stack with
        | top :: below =>
            if String.eqb top ".." then
              normalizeSegments allowAboveRoot rest (s :: stack)
            else normalizeSegments allowAboveRoot rest below
        | [] =>
            if allowAboveRoot then normalizeSegments allowAboveRoot rest [s]
            else normalizeSegments allowAboveRoot rest []
        end
      else normalizeSegments allowAboveRoot rest (s :: stack)
  end.

(** [path.normalize(p)] *)
Definition normalize (p : string) : string :=
  if String.eqb p "" then "."
  else
    let abs := isAbsolute p in
    let body := join "/" (normalizeSegments (negb abs) (split_slash p) []) in
    if String.eqb body "" then
      if abs then "/" else if endsWithSlash p then "./" else "."
    else
      let body := if endsWithSlash p then body ++ "/" else body in
      if abs then "/" ++ body else body.

(** [path.join(...segments)] *)
Definition join_paths (segments : list string) : string :=
  let joined := join "/" (List.filter (fun s => negb (String.eqb s "")) segments) in
  if String.eqb joined "" then "." else normalize joined.

(** The segments of [path.resolve(p)], in a process whose working
    directory is [process_cwd] (an absolute path). *)
Definition resolveSegments (process_cwd p : string) : list string :=
  let full := if isAbsolute p then p else process_cwd ++ "/" ++ p in
  normalizeSegments false (split_slash full) [].

Fixpoint dropCommon (from to : list string) : list string * list string :=
  match from, to with
  | f :: from', t :: to' =>
      if String.eqb f t then dropCommon from' to' else (from, to)
  | _, _ => (from, to)
  end.

(** [path.relative(from, to)]: one [..] for each segment of [from] below
    the common ancestor, then the segments of [to] below it. *)
Definition relative (process_cwd from to : string) : string :=
  let '(up, down) :=
    dropCommon (resolveSegments process_cwd from) (resolveSegments process_cwd to) in
  join "/" (map (fun _ => "..") up ++ down)%list.

End Posix.

(** ** A concrete host: SHA-256 (FIPS 180-4) on 32-bit words held in [Z] *)

Module Sha256.
Local Open Scope Z_scope.

Definition w32 (x : Z) : Z := Z.land x 0xFFFFFFFF.
Definition add32 (x y : Z) : Z := w32 (x + y).
Definition rotr (n x : Z) : Z := Z.lor (Z.shiftr x n) (w32 (Z.shiftl x (32 - n))).
Definition not32 (x : Z) : Z := Z.lxor x 0xFFFFFFFF.

Definition Ch (x y z : Z) : Z := Z.lxor (Z.land x y) (Z.land (not32 x) z).
Definition Maj (x y z : Z) : Z :=
  Z.lxor (Z.lxor (Z.land x y) (Z.land x z)) (Z.land y z).
Definition Sigma0 (x : Z) : Z := Z.lxor (Z.lxor (rotr 2 x) (rotr 13 x)) (rotr 22 x).
Definition Sigma1 (x : Z) : Z := Z.lxor (Z.lxor (rotr 6 x) (rotr 11 x)) (rotr 25 x).
Definition sigma0 (x : Z) : Z := Z.lxor (Z.lxor (rotr 7 x) (rotr 18 x)) (Z.shiftr x 3).
Definition sigma1 (x : Z) : Z := Z.lxor (Z.lxor (rotr 17 x) (rotr 19 x)) (Z.shiftr x 10).

(** The first sixty-four primes. *)
Definition is_prime (n : Z) : bool :=
  forallb (fun d => negb (Z.eqb (n mod Z.of_nat d) 0)) (seq 2 (Z.to_nat n - 2)).

Definition primes : list Z :=
  List.filter is_prime (map Z.of_nat (seq 2 310)).

(** The largest [r] below [2 ^ bits] with [r ^ 3 <= n], bit by bit. *)
Fixpoint cube_root_bits (bits : nat) (n r : Z) : Z :=
  match bits with
  | O => r
  | S b =>
      let r' := r + Z.shiftl 1 (Z.of_nat b) in
      cube_root_bits b n (if Z.leb (r' * r' * r') n then r' else r)
  end.

(** The first 32 bits of the fractional part of the cube root of [p]. *)
Definition frac_cube_root (p : Z) : Z :=
  w32 (cube_root_bits 36 (Z.shiftl p 96) 0).

(** The first 32 bits of the fractional part of the square root of [p]. *)
Definition frac_square_root (p : Z) : Z := w32 (Z.sqrt (Z.shiftl p 64)).

(** The round constants and the initial hash value, as FIPS 180-4
    defines them from the primes. *)
Definition K : list Z := Eval vm_compute in map frac_cube_root primes.

Definition H0 : list Z := Eval vm_compute in map frac_square_root (firstn 8 primes).

Definition bytes_of_string (s : string) : list Z :=
  map (fun c => Z.of_nat (nat_of_ascii c)) (list_ascii_of_string s).

(** Big-endian bytes of [x], [n] of them. *)
Fixpoint be_bytes (n : nat) (x : Z) : list Z :=
  match n with
  | O => []
  | S n' => Z.land (Z.shiftr x (8 * Z.of_nat n')) 0xFF :: be_bytes n' x
  end.

(** The message, a one bit, zeros up to 56 modulo 64, the bit length. *)
Definition pad (msg : list Z) : list Z :=
  let len := Z.of_nat (length msg) in
  let zeros := Z.to_nat ((55 - len) mod 64) in
  (msg ++ [0x80] ++ repeat 0 zeros ++ be_bytes 8 (8 * len))%list.

(** Big-endian 32-bit words of a byte list. *)
Fixpoint words (fuel : nat) (bs : list Z) : list Z :=
  match fuel, bs with
  | S fuel', b0 :: b1 :: b2 :: b3 :: rest =>
      (Z.shiftl b0 24 + Z.shiftl b1 16 + Z.shiftl b2 8 + b3) :: words fuel' rest
  | _, _ => []
  end.

(** The message schedule: [window] holds the last sixteen words. *)
Fixpoint schedule (n : nat) (window : list Z) : list Z :=
  match n with
  | O => []
  | S n' =>
      let w := fun i => nth i window 0 in
      let next := add32 (add32 (sigma1 (w 14%nat)) (w 9%nat))
                        (add32 (sigma0 (w 1%nat)) (w 0%nat)) in
      next :: schedule n' (tl window ++ [next])%list
  end.

Record regs : Type := mkRegs { ra : Z; rb : Z; rc : Z; rd : Z;
                               re : Z; rf : Z; rg : Z; rh : Z }.

Definition round (r : regs) (kw : Z * Z) : regs :=
  let t1 := add32 (add32 (add32 (rh r) (Sigma1 (re r)))
                         (add32 (Ch (re r) (rf r) (rg r)) (fst kw))) (snd kw) in
  let t2 := add32 (Sigma0 (ra r)) (Maj (ra r) (rb r) (rc r)) in
  mkRegs (add32 t1 t2) (ra r) (rb r) (rc r) (add32 (rd r) t1) (re r) (rf r) (rg r).

Definition regs_of (h : list Z) : regs :=
  let w := fun i => nth i h 0 in
  mkRegs (w 0%nat) (w 1%nat) (w 2%nat) (w 3%nat) (w 4%nat) (w 5%nat) (w 6%nat) (w 7%nat).

Definition list_of (r : regs) : list Z :=
  [ra r; rb r; rc r; rd r; re r; rf r; rg r; rh r].

Definition compress (h : list Z) (block : list Z) : list Z :=
  let w16 := words 16 block in
  let w := (w16 ++ schedule 48 w16)%list in
  let r := fold_left round (combine K w) (regs_of h) in
  map (fun p => add32 (fst p) (snd p)) (combine h (list_of r)).

Fixpoint blocks (fuel : nat) (h : list Z) (bs : list Z) : list Z :=
  match fuel with
  | O => h
  | S fuel' =>
      match bs with
      | [] => h
      | _ => blocks fuel' (compress h (firstn 64 bs)) (skipn 64 bs)
      end
  end.

Definition digest (msg : list Z) : list Z :=
  let padded := pad msg in
  flat_map (be_bytes 4) (blocks (length padded) H0 padded).

Definition hex_of_byte (b : Z) : string :=
  String (hex_digit (Z.to_nat (Z.shiftr b 4)))
    (String (hex_digit (Z.to_nat (Z.land b 0xF))) EmptyString).

(** [crypto.createHash('sha256').update(s).digest('hex')] *)
Definition sha256_hex (s : string) : string :=
  String.concat "" (map hex_of_byte (digest (bytes_of_string s))).

End Sha256.

(** ** The scope matcher as the design document words it *)

Module Spec.

(** The components of a path; a trailing separator adds none, so that a
    scope entry [src/hooks/] names the subtree below [src/hooks]. *)
Definition segmentsOf (p : string) : list string :=
  List.filter (fun s => negb (String.eqb s "")) (Posix.split_slash p).

Fixpoint segmentPrefix (scope target : list string) : bool :=
  match scope, target with
  | [], _ => true
  | s :: scope', t :: target' => String.eqb s t && segmentPrefix scope' target'
  | _ :: _, [] => false
  end.

(** ALLOW if an entry is an exact match to the normalized target, or the
    target begins with an entry taken as a path prefix, component-wise. *)
Definition authorize (target : string) (scopes : list string) : bool :=
  existsb (fun scope =>
             String.eqb scope target
             || segmentPrefix (segmentsOf scope) (segmentsOf target))
          scopes.

(** The normalized target resolves above the project root. *)
Definition escapesRoot (relativePath : string) : bool :=
  String.eqb relativePath ".." || String.prefix "../" relativePath.

End Spec.

(** ** Concrete inputs *)

Module Demo.

Definition nl : string := SelectActiveIntentTool.nl.

(** A text file: its lines, each ended by a line feed. *)
Definition lines (ls : list string) : string :=
  String.concat "" (map (fun l => l ++ nl) ls).

Definition INT_001 : ActiveIntent :=
  {| id := "INT-001";
     name := "Hook System Implementation";
     status := in_progress;
     owned_scope := ["src/hooks/"; "docs/README.md"];
     constraints := ["Must maintain type safety"];
     acceptance_criteria := ["Tests pass"] |}.

Definition INT_002 : ActiveIntent :=
  {| id := "INT-002";
     name := "Documentation Updates";
     status := pending;
     owned_scope := ["src/hook"; "../shared/"];
     constraints := ["Keep the changelog current"];
     acceptance_criteria := ["Docs build"] |}.

Definition INT_003 : ActiveIntent :=
  {| id := "INT-003";
     name := "JWT Migration";
     status := pending;
     owned_scope := [];
     constraints := [];
     acceptance_criteria := [] |}.

(** [active_intents.yaml] holding the three intents above. *)
Definition intentsYaml : string :=
  lines [ "- id: INT-001";
          "  name: Hook System Implementation";
          "  status: in_progress";
          "  owned_scope:";
          "    - src/hooks/";
          "    - docs/README.md";
          "  constraints:";
          "    - Must maintain type safety";
          "  acceptance_criteria:";
          "    - Tests pass";
          "- id: INT-002";
          "  name: Documentation Updates";
          "  status: pending";
          "  owned_scope:";
          "    - src/hook";
          "    - ../shared/";
          "  constraints:";
          "    - Keep the changelog current";
          "  acceptance_criteria:";
          "    - Docs build";
          "- id: INT-003";
          "  name: JWT Migration";
          "  status: pending";
          "  owned_scope: []";
          "  constraints: []";
          "  acceptance_criteria: []" ].

(** A file cut off inside a flow sequence: the parser throws on it. *)
Definition brokenYaml : string :=
  lines [ "- id: INT-001";
          "  owned_scope: [src/hooks/" ].

(** A well-formed document that is a mapping, not a list of intents. *)
Definition mappingYaml : string :=
  lines [ "intents:";
          "  INT-001:";
          "    owned_scope:";
          "      - src/hooks/" ].

(** The [yaml] package on the three documents above; no other text is
    parsed in this file. *)
Definition yaml_parse (text : string) : outcome YamlDoc :=
  if String.eqb text intentsYaml then Ok (YamlSeq [INT_001; INT_002; INT_003])
  else if String.eqb text mappingYaml then Ok YamlOther
  else if String.eqb text brokenYaml then
    Throw (mkError "YAMLParseError"
             "Flow sequence in block collection must be sufficiently indented and end with a ]")
  else Throw (mkError "YAMLParseError" "document outside the examples").

(** Node on POSIX, started in [/mock/cwd], in a checkout at [main]. *)
Definition node : Host :=
  {| path_join := Posix.join_paths;
     path_relative := Posix.relative "/mock/cwd";
     parseYaml := yaml_parse;
     sha256_hex := Sha256.sha256_hex;
     getGitMetadata := fun _ => Ok (mkGit "main" "0000000") |}.

(** [mockTask] of the test suite. *)
Definition mockTask : Task := {| taskId := "test-task-id"; cwd := "/mock/cwd" |}.

Definition storePath : string := "/mock/cwd/.orchestration/active_intents.yaml".
Definition tracePath : string := "/mock/cwd/.orchestration/agent_trace.jsonl".

(** A fresh process: nobody bound, nothing logged, the given files. *)
Definition freshState (fs : gmap string string) : State :=
  {| activeIntents := ∅;
     files := fs;
     appended := ∅;
     console := [];
     now := "2026-02-20T10:00:00.000Z";
     toolResults := [];
     handledErrors := [];
     unwritable := ∅ |}.

Definition withStore (text : string) : State := freshState {[ storePath := text ]}.
Definition withoutStore : State := freshState ∅.

(** The state after [postToolExecution("select_active_intent", {intent_id})]. *)
Definition bound (intentId : string) (st : State) : State :=
  snd (HookEngine.postToolExecution node "select_active_intent"
         (mkParams JUndefined JUndefined (JStr intentId)) (JStr "Selected")
         mockTask st).

Definition write (path : string) (content : jsval) : Params :=
  mkParams (JStr path) content JUndefined.

End Demo.

(** ** Further concrete inputs: an open scope, a repeated id *)

Module Edge.

Definition INT_OPEN : ActiveIntent :=
  {| id := "INT-OPEN";
     name := "Workspace cleanup";
     status := in_progress;
     owned_scope := ["docs/"; ""];
     constraints := [];
     acceptance_criteria := [] |}.

(** A store whose one intent lists the empty string among its scope. *)
Definition openYaml : string :=
  Demo.lines [ "- id: INT-OPEN";
               "  name: Workspace cleanup";
               "  status: in_progress";
               "  owned_scope:";
               "    - docs/";
               "    - ''";
               "  constraints: []";
               "  acceptance_criteria: []" ].

Definition INT_DUP_first : ActiveIntent :=
  {| id := "INT-DUP";
     name := "Documentation";
     status := in_progress;
     owned_scope := ["docs/"];
     constraints := [];
     acceptance_criteria := [] |}.

Definition INT_DUP_second : ActiveIntent :=
  {| id := "INT-DUP";
     name := "Sources";
     status := pending;
     owned_scope := ["src/"];
     constraints := [];
     acceptance_criteria := [] |}.

(** A store with two intents under one id. *)
Definition repeatedYaml : string :=
  Demo.lines [ "- id: INT-DUP";
               "  name: Documentation";
               "  status: in_progress";
               "  owned_scope:";
               "    - docs/";
               "  constraints: []";
               "  acceptance_criteria: []";
               "- id: INT-DUP";
               "  name: Sources";
               "  status: pending";
               "  owned_scope:";
               "    - src/";
               "  constraints: []";
               "  acceptance_criteria: []" ].

(** The [yaml] package on the two documents above and on those of [Demo]. *)
Definition yaml_parse (text : string) : outcome YamlDoc :=
  if String.eqb text openYaml then Ok (YamlSeq [INT_OPEN])
  else if String.eqb text repeatedYaml then
    Ok (YamlSeq [INT_DUP_first; INT_DUP_second])
  else Demo.yaml_parse text.

(** [st] with the trace file of [Demo.mockTask] on a full disk. *)
Definition diskFull (st : State) : State :=
  mkState (activeIntents st) (files st) (appended st) (console st) (now st)
          (toolResults st) (handledErrors st)
          {[ Demo.tracePath := new_Error "ENOSPC: no space left on device, write" ]}.

Definition node : Host :=
  {| path_join := path_join Demo.node;
     path_relative := path_relative Demo.node;
     parseYaml := yaml_parse;
     sha256_hex := sha256_hex Demo.node;
     getGitMetadata := getGitMetadata Demo.node |}.

End Edge.

(** ** Vocabulary of the statements *)

(** The intent store of [task] is present and [parseYaml] leaves [doc]
    (a document, or the error it threw) on its text. *)
Definition storeYields (host : Host) (st : State) (task : Task)
    (doc : outcome YamlDoc) : Prop :=
  exists content,
    files st !! HookEngine.intentsPathOf host task = Some content
    /\ parseYaml host content = doc.

(** The registry binds the session of [task] to the intent id [v]. *)
Definition boundTo (st : State) (task : Task) (v : jsval) : Prop :=
  activeIntents st !! taskId task = Some v /\ truthy v = true.

(** No intent is bound for the session of [task]: [!intentId] holds. *)
Definition unbound (st : State) (task : Task) : Prop :=
  truthy (default JUndefined (activeIntents st !! taskId task)) = false.

(** The records appended so far to the trace file of [task]. *)
Definition traceOf (host : Host) (st : State) (task : Task) : list TraceEntry :=
  default [] (appended st !! HookEngine.traceFileOf host task).

(** [st] with [ls] written to the console and nothing else changed. *)
Definition addConsole (st : State) (ls : list LogLine) : State :=
  mkState (activeIntents st) (files st) (appended st) (console st ++ ls)%list
          (now st) (toolResults st) (handledErrors st) (unwritable st).

(** The console lines of the hooks. *)
Definition preLogLine (toolName : string) : LogLine :=
  mkLog LevelLog ("[HookEngine] Pre-tool execution: " ++ toolName) None.

Definition postLogLine (toolName : string) : LogLine :=
  mkLog LevelLog ("[HookEngine] Post-tool execution: " ++ toolName) None.

Definition unboundWarning : LogLine :=
  mkLog LevelWarn "[HookEngine] WRITE attempted without Active Intent" None.

Definition notFoundWarning (intentId : jsval) : LogLine :=
  mkLog LevelWarn
    ("[HookEngine] Intent " ++ to_string intentId ++ " not found in yaml") None.

Definition enforceErrorLine (e : js_error) : LogLine :=
  mkLog LevelError "[HookEngine] Error enforcing scope:" (Some e).

(** The error a scope violation throws. *)
Definition scopeViolationError (intentId : jsval) (relativePath : string)
    (scopes : list string) : js_error :=
  new_Error (HookEngine.scopeViolationMessage (to_string intentId) relativePath scopes).

(** [st] after [handleError(action, e)] and nothing else. *)
Definition addHandledError (st : State) (action : string) (e : js_error) : State :=
  mkState (activeIntents st) (files st) (appended st) (console st) (now st)
          (toolResults st) (handledErrors st ++ [(action, e)])%list (unwritable st).

(** What the select-intent tool throws when the store is absent. *)
Definition noStoreError : js_error :=
  new_Error
    "No active intents found. Please contact the administrator to initialize .orchestration/active_intents.yaml".

(** [st] after one record is appended to the file [p] and nothing else. *)
Definition withAppended (st : State) (p : string) (entry : TraceEntry) : State :=
  mkState (activeIntents st) (files st)
          (<[p := (default [] (appended st !! p) ++ [entry])%list]> (appended st))
          (console st) (now st) (toolResults st) (handledErrors st) (unwritable st).

(** What [Hash.update] throws on a value that is neither a string nor a
    buffer. *)
Definition hashDataError : js_error :=
  new_TypeError
    "The 'data' argument must be of type string or an instance of Buffer, TypedArray, or DataView.".

(** The content a traced write hashes: [s] is the string given, or the
    empty string when the tool gave no content or a falsy one. *)
Definition contentIs (params : Params) (s : string) : Prop :=
  p_content params = JStr s \/ (truthy (p_content params) = false /\ s = "").

(** The pre-action hook denies: the awaited call throws. *)
Definition denied {A} (r : outcome A * State) : Prop := exists e, fst r = Throw e.

(** A strict mode exists: some host, state, parameters and task in which
    a write without a bound intent is denied. *)
Definition strictModeSupported : Prop :=
  exists host st params task,
    unbound st task
    /\ denied (HookEngine.preToolExecution host "write_to_file" params task st).

(** [st] with the session [taskId] bound to [v] and nothing else changed. *)
Definition withBinding (st : State) (taskId : string) (v : jsval) : State :=
  mkState (<[taskId := v]> (activeIntents st)) (files st) (appended st)
          (console st) (now st) (toolResults st) (handledErrors st) (unwritable st).

(** [st] after [pushToolResult(block)] and nothing else. *)
Definition addToolResult (st : State) (block : string) : State :=
  mkState (activeIntents st) (files st) (appended st) (console st) (now st)
          (toolResults st ++ [block])%list (handledErrors st) (unwritable st).

(** The console line of a successful binding. *)
Definition setIntentLine (v : jsval) (task : Task) : LogLine :=
  mkLog LevelLog
    ("[HookEngine] Set active intent " ++ to_string v ++ " for task " ++ taskId task)
    None.

(** What the select-intent tool throws when the id is not in the text. *)
Definition idNotFoundError (v : jsval) : js_error :=
  new_Error ("Intent ID " ++ to_string v ++ " not found in active_intents.yaml").

(** Every value the registry holds is truthy: a session with an entry is
    a bound session. *)
Definition registryTruthy (st : State) : Prop :=
  forall k v, activeIntents st !! k = Some v -> truthy v = true.

(** The records appended to the file [p]. *)
Definition recordsAt (st : State) (p : string) : list TraceEntry :=
  default [] (appended st !! p).

(** * Properties *)

(** Closed goals over concrete inputs are settled by evaluation. *)
Ltac evaluate := repeat split; vm_compute; reflexivity.

(** ** Strings *)

Lemma prefix_nil (s : string) : String.prefix "" s = true.
Proof. destruct s; reflexivity. Qed.

Lemma prefix_refl (s : string) : String.prefix s s = true.
Proof.
  induction s as [|c s IH]; simpl; [reflexivity|].
  destruct (Ascii.ascii_dec c c); [exact IH | congruence].
Qed.

Lemma eqb_prefix (s t : string) : String.eqb s t = true -> String.prefix s t = true.
Proof. intros H. apply String.eqb_eq in H. subst. apply prefix_refl. Qed.

Lemma prefix_app (p s : string) : String.prefix p (p ++ s) = true.
Proof.
  induction p as [|c p IH]; simpl; [apply prefix_nil|].
  destruct (Ascii.ascii_dec c c); [exact IH | congruence].
Qed.

Lemma includes_prefix (s sub : string) :
  String.prefix sub s = true -> includes s sub = true.
Proof. intros H. destruct s; simpl in *; rewrite H; reflexivity. Qed.

(** ** The scope matcher *)

Lemma scopeMatches_prefix (rel fp scope : string) :
  HookEngine.scopeMatches rel fp scope
  = String.prefix scope rel || String.prefix scope fp.
Proof.
  unfold HookEngine.scopeMatches, startsWith.
  destruct (String.eqb scope rel) eqn:E1; simpl.
  - rewrite (eqb_prefix _ _ E1). reflexivity.
  - destruct (String.eqb scope fp) eqn:E2; simpl.
    + rewrite (eqb_prefix _ _ E2). rewrite orb_true_r. reflexivity.
    + destruct (String.prefix scope rel || String.prefix scope fp); reflexivity.
Qed.

Lemma isAllowed_true_iff (scopes : list string) (rel fp : string) :
  HookEngine.isAllowed scopes rel fp = true
  <-> exists scope, In scope scopes
        /\ (String.prefix scope rel = true \/ String.prefix scope fp = true).
Proof.
  unfold HookEngine.isAllowed. rewrite existsb_exists.
  split; intros (scope & Hin & H); exists scope; split; try assumption.
  - rewrite scopeMatches_prefix in H. apply orb_true_iff in H. exact H.
  - rewrite scopeMatches_prefix. apply orb_true_iff. exact H.
Qed.

Lemma isAllowed_nil (rel fp : string) : HookEngine.isAllowed [] rel fp = false.
Proof. reflexivity. Qed.

Lemma scopeViolation_startsWith (intentId rel : string) (scopes : list string) :
  startsWith (HookEngine.scopeViolationMessage intentId rel scopes) "Scope Violation"
  = true.
Proof. reflexivity. Qed.

(** ** enforceScope, case by case *)

Section EnforceScope.

Variable host : Host.
Variable st : State.
Variable task : Task.

Lemma addConsole_nil : addConsole st [] = st.
Proof. unfold addConsole. rewrite app_nil_r. destruct st; reflexivity. Qed.

Lemma enforceScope_absent (intentId filePath : jsval) :
  files st !! HookEngine.intentsPathOf host task = None ->
  HookEngine.enforceScope host intentId filePath task st = (Ok tt, st).
Proof.
  intros Hf. unfold HookEngine.enforceScope, bind, fileExistsAtPath.
  rewrite bool_decide_eq_false_2; [reflexivity|].
  rewrite Hf. intros [x Hx]. discriminate.
Qed.

Lemma enforceScope_present (intentId filePath : jsval) (content : string) :
  files st !! HookEngine.intentsPathOf host task = Some content ->
  HookEngine.enforceScope host intentId filePath task st
  = try_catch
      (let! intents := lift (parseYaml host content) in
       match match intents with
             | YamlSeq l => HookEngine.findIntent l intentId
             | YamlOther => None
             end with
       | None =>
           console_warn ("[HookEngine] Intent " ++ to_string intentId
                         ++ " not found in yaml")
       | Some intent =>
           match filePath with
           | JStr fp =>
               let rel := path_relative host (cwd task) fp in
               if HookEngine.isAllowed (owned_scope intent) rel fp then ret tt
               else throw (new_Error
                      (HookEngine.scopeViolationMessage (to_string intentId) rel
                         (owned_scope intent)))
           | _ => throw (new_TypeError "The 'to' argument must be of type string.")
           end
       end)
      (fun error =>
         if startsWith (message error) "Scope Violation" then throw error
         else console_error "[HookEngine] Error enforcing scope:" error)
      st.
Proof.
  intros Hf. unfold HookEngine.enforceScope, bind at 1. unfold fileExistsAtPath.
  rewrite bool_decide_eq_true_2 by (rewrite Hf; eauto). simpl.
  unfold try_catch, HookEngine.enforceScope_body, bind at 1. unfold readFile.
  rewrite Hf. reflexivity.
Qed.

Lemma enforceScope_resolved (intentId : jsval) (t : string)
    (l : list ActiveIntent) (intent : ActiveIntent) :
  storeYields host st task (Ok (YamlSeq l)) ->
  HookEngine.findIntent l intentId = Some intent ->
  HookEngine.enforceScope host intentId (JStr t) task st
  = (if HookEngine.isAllowed (owned_scope intent)
          (path_relative host (cwd task) t) t
     then Ok tt
     else Throw (scopeViolationError intentId
                   (path_relative host (cwd task) t) (owned_scope intent)),
     st).
Proof.
  intros (content & Hf & Hp) Hfind.
  rewrite (enforceScope_present _ _ _ Hf).
  unfold try_catch, bind, lift. rewrite Hp, Hfind. cbv zeta.
  destruct (HookEngine.isAllowed _ _ _); [reflexivity|].
  unfold throw. cbn [message new_Error].
  rewrite scopeViolation_startsWith. reflexivity.
Qed.

Lemma enforceScope_not_found (intentId filePath : jsval) (doc : YamlDoc) :
  storeYields host st task (Ok doc) ->
  match doc with
  | YamlSeq l => HookEngine.findIntent l intentId = None
  | YamlOther => True
  end ->
  HookEngine.enforceScope host intentId filePath task st
  = (Ok tt, addConsole st [notFoundWarning intentId]).
Proof.
  intros (content & Hf & Hp) Hnone.
  rewrite (enforceScope_present _ _ _ Hf).
  unfold try_catch, bind, lift. rewrite Hp.
  destruct doc as [l|]; [rewrite Hnone|]; reflexivity.
Qed.

Lemma enforceScope_parse_error (intentId filePath : jsval) (e : js_error) :
  storeYields host st task (Throw e) ->
  startsWith (message e) "Scope Violation" = false ->
  HookEngine.enforceScope host intentId filePath task st
  = (Ok tt, addConsole st [enforceErrorLine e]).
Proof.
  intros (content & Hf & Hp) Hmsg.
  rewrite (enforceScope_present _ _ _ Hf).
  unfold try_catch, bind, lift. rewrite Hp, Hmsg. reflexivity.
Qed.

(** [enforceScope] writes to the console at most: the registry, the
    files and the trace are as before, whatever it returns. *)
Lemma enforceScope_frame (intentId filePath : jsval) :
  exists ls,
    snd (HookEngine.enforceScope host intentId filePath task st) = addConsole st ls.
Proof.
  destruct (files st !! HookEngine.intentsPathOf host task) as [content|] eqn:Hf.
  - rewrite (enforceScope_present _ _ _ Hf).
    unfold try_catch, bind, lift.
    destruct (parseYaml host content) as [doc|e].
    + destruct (match doc with
                | YamlSeq l => HookEngine.findIntent l intentId
                | YamlOther => None
                end) as [intent|].
      * destruct filePath; cbn;
          try (eexists [_]; reflexivity).
        destruct (HookEngine.isAllowed _ _ _); cbn.
        -- exists []. symmetry. apply addConsole_nil.
        -- exists []. symmetry. apply addConsole_nil.
      * eexists [_]; reflexivity.
    + destruct (startsWith (message e) "Scope Violation"); cbn.
      * exists []. symmetry. apply addConsole_nil.
      * eexists [_]; reflexivity.
  - rewrite enforceScope_absent by exact Hf. exists []. symmetry. apply addConsole_nil.
Qed.

End EnforceScope.

(** ** The hooks *)

Section Hooks.

Variable host : Host.

Lemma addConsole_app (st : State) (xs ys : list LogLine) :
  addConsole (addConsole st xs) ys = addConsole st (xs ++ ys).
Proof. unfold addConsole. cbn. rewrite app_assoc. reflexivity. Qed.

Lemma storeYields_addConsole (st : State) (task : Task) (ls : list LogLine)
    (doc : outcome YamlDoc) :
  storeYields host st task doc -> storeYields host (addConsole st ls) task doc.
Proof. intros H. exact H. Qed.

Lemma findIntent_none (l : list ActiveIntent) (v : jsval) :
  (forall i, In i l -> JStr (id i) <> v) -> HookEngine.findIntent l v = None.
Proof.
  unfold HookEngine.findIntent.
  induction l as [|i l IH]; intros H; [reflexivity|]. cbn.
  rewrite bool_decide_eq_false_2 by (apply H; left; reflexivity).
  apply IH. intros j Hj. apply H. right. exact Hj.
Qed.

Lemma preToolExecution_bound (st : State) (task : Task) (params : Params)
    (v : jsval) :
  boundTo st task v ->
  HookEngine.preToolExecution host "write_to_file" params task st
  = HookEngine.enforceScope host v (p_path params) task
      (addConsole st [preLogLine "write_to_file"]).
Proof.
  intros [Hb Ht].
  unfold HookEngine.preToolExecution, bind, console_log, console_emit,
    activeIntents_get.
  cbn. rewrite Hb. cbn. rewrite Ht. reflexivity.
Qed.

Lemma preToolExecution_unbound (st : State) (task : Task) (params : Params) :
  unbound st task ->
  HookEngine.preToolExecution host "write_to_file" params task st
  = (Ok tt, addConsole st [preLogLine "write_to_file"; unboundWarning]).
Proof.
  unfold unbound. intros Hu.
  unfold HookEngine.preToolExecution, bind, console_log, console_warn,
    console_emit, activeIntents_get.
  cbn. rewrite Hu. cbn. unfold addConsole. rewrite <- app_assoc. reflexivity.
Qed.

Lemma preToolExecution_other (st : State) (task : Task) (params : Params)
    (toolName : string) :
  String.eqb toolName "write_to_file" = false ->
  HookEngine.preToolExecution host toolName params task st
  = (Ok tt, addConsole st [preLogLine toolName]).
Proof.
  intros Hn.
  unfold HookEngine.preToolExecution, bind, console_log, console_emit,
    activeIntents_get.
  cbn. rewrite Hn. reflexivity.
Qed.

(** The pre-action hook writes to the console only. *)
Lemma preToolExecution_frame (st : State) (task : Task) (params : Params)
    (toolName : string) :
  exists ls,
    snd (HookEngine.preToolExecution host toolName params task st) = addConsole st ls.
Proof.
  destruct (String.eqb toolName "write_to_file") eqn:Hn.
  - apply String.eqb_eq in Hn. subst toolName.
    destruct (truthy (default JUndefined (activeIntents st !! taskId task))) eqn:Ht.
    + destruct (activeIntents st !! taskId task) as [v|] eqn:Hb; [|discriminate].
      rewrite (preToolExecution_bound st task params v) by (split; assumption).
      destruct (enforceScope_frame host
                  (addConsole st [preLogLine "write_to_file"]) task v (p_path params))
        as [ls Hls].
      rewrite Hls, addConsole_app. eauto.
    + rewrite preToolExecution_unbound by exact Ht. eauto.
  - rewrite preToolExecution_other by exact Hn. eauto.
Qed.

End Hooks.

(** ** Scope authorization *)

(** C1 (amended): for every target path [t] and every intent with scope list
    [S] that the bound id resolves to, [enforceScope] allows [t] if and only
    if some entry of [S] is a string prefix of the project-root-relative form
    of [t] or of [t] as given (an entry equal to either one is such a
    prefix); otherwise it denies with the Scope Violation error.  The prefix
    is taken on characters, not on path components. *)
Theorem enforceScope_allows_iff_string_prefix (host : Host) (st : State)
    (task : Task) (intentId : jsval) (t : string) (l : list ActiveIntent)
    (intent : ActiveIntent) :
  storeYields host st task (Ok (YamlSeq l)) ->
  HookEngine.findIntent l intentId = Some intent ->
  (fst (HookEngine.enforceScope host intentId (JStr t) task st) = Ok tt
   <-> exists scope,
         In scope (owned_scope intent)
         /\ (String.prefix scope (path_relative host (cwd task) t) = true
             \/ String.prefix scope t = true))
  /\ (fst (HookEngine.enforceScope host intentId (JStr t) task st) <> Ok tt ->
      fst (HookEngine.enforceScope host intentId (JStr t) task st)
      = Throw (scopeViolationError intentId (path_relative host (cwd task) t)
                 (owned_scope intent))).
Proof.
  intros Hstore Hfind.
  rewrite (enforceScope_resolved host st task intentId t l intent Hstore Hfind).
  rewrite <- isAllowed_true_iff.
  destruct (HookEngine.isAllowed _ _ _); cbn; split.
  - split; reflexivity.
  - intros H. contradiction.
  - split; intros H; discriminate.
  - reflexivity.
Qed.

Lemma enforceScope_allows_iff_string_prefix_witness :
  storeYields Demo.node (Demo.withStore Demo.intentsYaml) Demo.mockTask
    (Ok (YamlSeq [Demo.INT_001; Demo.INT_002; Demo.INT_003]))
  /\ HookEngine.findIntent [Demo.INT_001; Demo.INT_002; Demo.INT_003] (JStr "INT-001")
     = Some Demo.INT_001
  /\ (fst (HookEngine.enforceScope Demo.node (JStr "INT-001")
             (JStr "/mock/cwd/src/hooks/test.ts") Demo.mockTask
             (Demo.withStore Demo.intentsYaml)) = Ok tt
      <-> exists scope,
            In scope (owned_scope Demo.INT_001)
            /\ (String.prefix scope
                  (path_relative Demo.node (cwd Demo.mockTask)
                     "/mock/cwd/src/hooks/test.ts") = true
                \/ String.prefix scope "/mock/cwd/src/hooks/test.ts" = true)).
Proof.
  assert (Hs : storeYields Demo.node (Demo.withStore Demo.intentsYaml) Demo.mockTask
                 (Ok (YamlSeq [Demo.INT_001; Demo.INT_002; Demo.INT_003]))).
  { exists Demo.intentsYaml. split; vm_compute; reflexivity. }
  assert (Hf : HookEngine.findIntent [Demo.INT_001; Demo.INT_002; Demo.INT_003]
                 (JStr "INT-001") = Some Demo.INT_001).
  { vm_compute. reflexivity. }
  split; [exact Hs|]. split; [exact Hf|].
  exact (proj1 (enforceScope_allows_iff_string_prefix Demo.node
                  (Demo.withStore Demo.intentsYaml) Demo.mockTask (JStr "INT-001")
                  "/mock/cwd/src/hooks/test.ts" _ _ Hs Hf)).
Defined.

(** C1, as stated, fails: the entry [src/hook] of INT-002 authorizes
    [src/hooks-evil/x.ts], which lies in no subtree rooted at an entry. *)
Lemma enforceScope_not_component_wise :
  path_relative Demo.node (cwd Demo.mockTask) "/mock/cwd/src/hooks-evil/x.ts"
  = "src/hooks-evil/x.ts"
  /\ fst (HookEngine.enforceScope Demo.node (JStr "INT-002")
            (JStr "/mock/cwd/src/hooks-evil/x.ts") Demo.mockTask
            (Demo.withStore Demo.intentsYaml)) = Ok tt
  /\ Spec.authorize "src/hooks-evil/x.ts" (owned_scope Demo.INT_002) = false.
Proof. evaluate. Qed.

(** C5 (amended): a target that escapes the project root is checked by the
    same prefix rule as every other target.  If no scope entry is a string
    prefix of its relative form or of the path as given, the check denies
    it, with the ordinary Scope Violation error; if some entry is, the
    check allows it.  There is no out-of-root reason. *)
Theorem escaping_target_checked_by_prefix (host : Host) (st : State)
    (task : Task) (params : Params) (intentId : jsval) (t : string)
    (l : list ActiveIntent) (intent : ActiveIntent) :
  boundTo st task intentId ->
  storeYields host st task (Ok (YamlSeq l)) ->
  HookEngine.findIntent l intentId = Some intent ->
  p_path params = JStr t ->
  Spec.escapesRoot (path_relative host (cwd task) t) = true ->
  ((forall scope, In scope (owned_scope intent) ->
      String.prefix scope (path_relative host (cwd task) t) = false
      /\ String.prefix scope t = false) ->
   fst (HookEngine.preToolExecution host "write_to_file" params task st)
   = Throw (scopeViolationError intentId (path_relative host (cwd task) t)
              (owned_scope intent)))
  /\ ((exists scope, In scope (owned_scope intent)
         /\ (String.prefix scope (path_relative host (cwd task) t) = true
             \/ String.prefix scope t = true)) ->
      fst (HookEngine.preToolExecution host "write_to_file" params task st) = Ok tt).
Proof.
  intros Hb Hstore Hfind Hp _.
  rewrite (preToolExecution_bound host st task params intentId Hb), Hp.
  rewrite (enforceScope_resolved host _ task intentId t l intent
             (storeYields_addConsole host st task _ _ Hstore) Hfind).
  split.
  - intros Hnone.
    destruct (HookEngine.isAllowed _ _ _) eqn:Ha; [|reflexivity].
    apply isAllowed_true_iff in Ha. destruct Ha as (scope & Hin & Hor).
    destruct (Hnone scope Hin) as [H1 H2].
    destruct Hor; congruence.
  - intros Hsome. apply isAllowed_true_iff in Hsome. rewrite Hsome. reflexivity.
Qed.

Lemma escaping_target_checked_by_prefix_witness :
  boundTo (Demo.bound "INT-001" (Demo.withStore Demo.intentsYaml)) Demo.mockTask
    (JStr "INT-001")
  /\ Spec.escapesRoot
       (path_relative Demo.node (cwd Demo.mockTask) "/mock/shared/secret.ts") = true
  /\ fst (HookEngine.preToolExecution Demo.node "write_to_file"
            (Demo.write "/mock/shared/secret.ts" JUndefined) Demo.mockTask
            (Demo.bound "INT-001" (Demo.withStore Demo.intentsYaml)))
     = Throw (scopeViolationError (JStr "INT-001") "../shared/secret.ts"
                ["src/hooks/"; "docs/README.md"]).
Proof.
  assert (Hb : boundTo (Demo.bound "INT-001" (Demo.withStore Demo.intentsYaml))
                 Demo.mockTask (JStr "INT-001")).
  { split; vm_compute; reflexivity. }
  assert (He : Spec.escapesRoot
                 (path_relative Demo.node (cwd Demo.mockTask) "/mock/shared/secret.ts")
               = true).
  { vm_compute. reflexivity. }
  split; [exact Hb|]. split; [exact He|].
  refine (proj1 (escaping_target_checked_by_prefix Demo.node _ Demo.mockTask
                   (Demo.write "/mock/shared/secret.ts" JUndefined) (JStr "INT-001")
                   "/mock/shared/secret.ts"
                   [Demo.INT_001; Demo.INT_002; Demo.INT_003] Demo.INT_001
                   Hb _ _ _ He) _).
  - exists Demo.intentsYaml. split; vm_compute; reflexivity.
  - vm_compute. reflexivity.
  - reflexivity.
  - intros scope [<-|[<-|[]]]; split; vm_compute; reflexivity.
Defined.

(** C5, as stated, fails: [/mock/shared/secret.ts] resolves above the root
    [/mock/cwd], and the entry [../shared/] of INT-002 authorizes it. *)
Lemma escaping_target_allowed :
  path_relative Demo.node (cwd Demo.mockTask) "/mock/shared/secret.ts"
  = "../shared/secret.ts"
  /\ Spec.escapesRoot "../shared/secret.ts" = true
  /\ boundTo (Demo.bound "INT-002" (Demo.withStore Demo.intentsYaml)) Demo.mockTask
       (JStr "INT-002")
  /\ fst (HookEngine.preToolExecution Demo.node "write_to_file"
            (Demo.write "/mock/shared/secret.ts" JUndefined) Demo.mockTask
            (Demo.bound "INT-002" (Demo.withStore Demo.intentsYaml))) = Ok tt.
Proof. evaluate. Qed.

(** C6: if the owned_scope of the bound intent is the empty list, the
    pre-action check denies every target path [t]: it throws the Scope
    Violation error. *)
Theorem empty_scope_denies_every_target (host : Host) (st : State) (task : Task)
    (params : Params) (intentId : jsval) (t : string) (l : list ActiveIntent)
    (intent : ActiveIntent) :
  boundTo st task intentId ->
  storeYields host st task (Ok (YamlSeq l)) ->
  HookEngine.findIntent l intentId = Some intent ->
  owned_scope intent = [] ->
  p_path params = JStr t ->
  fst (HookEngine.preToolExecution host "write_to_file" params task st)
  = Throw (scopeViolationError intentId (path_relative host (cwd task) t) []).
Proof.
  intros Hb Hstore Hfind Hnil Hp.
  rewrite (preToolExecution_bound host st task params intentId Hb), Hp.
  rewrite (enforceScope_resolved host _ task intentId t l intent
             (storeYields_addConsole host st task _ _ Hstore) Hfind).
  rewrite Hnil. reflexivity.
Qed.

Lemma empty_scope_denies_every_target_witness :
  boundTo (Demo.bound "INT-003" (Demo.withStore Demo.intentsYaml)) Demo.mockTask
    (JStr "INT-003")
  /\ owned_scope Demo.INT_003 = []
  /\ fst (HookEngine.preToolExecution Demo.node "write_to_file"
            (Demo.write "/mock/cwd/src/auth/jwt.ts" JUndefined) Demo.mockTask
            (Demo.bound "INT-003" (Demo.withStore Demo.intentsYaml)))
     = Throw (scopeViolationError (JStr "INT-003")
                (path_relative Demo.node (cwd Demo.mockTask) "/mock/cwd/src/auth/jwt.ts")
                []).
Proof.
  assert (Hb : boundTo (Demo.bound "INT-003" (Demo.withStore Demo.intentsYaml))
                 Demo.mockTask (JStr "INT-003")).
  { split; vm_compute; reflexivity. }
  split; [exact Hb|]. split; [reflexivity|].
  apply (empty_scope_denies_every_target Demo.node _ Demo.mockTask
           (Demo.write "/mock/cwd/src/auth/jwt.ts" JUndefined) (JStr "INT-003")
           "/mock/cwd/src/auth/jwt.ts"
           [Demo.INT_001; Demo.INT_002; Demo.INT_003] Demo.INT_003 Hb).
  - exists Demo.intentsYaml. split; vm_compute; reflexivity.
  - vm_compute. reflexivity.
  - reflexivity.
  - reflexivity.
Defined.

(** ** The intent store at the pre-action hook *)

(** C2 (amended): if the session is bound to an intent id and the loaded
    intent store holds no intent record with that id, the pre-action check
    for [write_to_file] raises no error: it logs the warning
    [Intent <id> not found in yaml] and allows the action. *)
Theorem unresolved_intent_is_allowed (host : Host) (st : State) (task : Task)
    (params : Params) (intentId : jsval) (l : list ActiveIntent) :
  boundTo st task intentId ->
  storeYields host st task (Ok (YamlSeq l)) ->
  (forall i, In i l -> JStr (id i) <> intentId) ->
  HookEngine.preToolExecution host "write_to_file" params task st
  = (Ok tt, addConsole st [preLogLine "write_to_file"; notFoundWarning intentId]).
Proof.
  intros Hb Hstore Hno.
  rewrite (preToolExecution_bound host st task params intentId Hb).
  rewrite (enforceScope_not_found host _ task intentId (p_path params) (YamlSeq l)
             (storeYields_addConsole host st task _ _ Hstore)
             (findIntent_none l intentId Hno)).
  rewrite addConsole_app. reflexivity.
Qed.

Lemma unresolved_intent_is_allowed_witness :
  boundTo (Demo.bound "INT-999" (Demo.withStore Demo.intentsYaml)) Demo.mockTask
    (JStr "INT-999")
  /\ fst (HookEngine.preToolExecution Demo.node "write_to_file"
            (Demo.write "/mock/cwd/package.json" JUndefined) Demo.mockTask
            (Demo.bound "INT-999" (Demo.withStore Demo.intentsYaml))) = Ok tt.
Proof.
  assert (Hb : boundTo (Demo.bound "INT-999" (Demo.withStore Demo.intentsYaml))
                 Demo.mockTask (JStr "INT-999")).
  { split; vm_compute; reflexivity. }
  split; [exact Hb|].
  rewrite (unresolved_intent_is_allowed Demo.node _ Demo.mockTask
             (Demo.write "/mock/cwd/package.json" JUndefined) (JStr "INT-999")
             [Demo.INT_001; Demo.INT_002; Demo.INT_003] Hb).
  - reflexivity.
  - exists Demo.intentsYaml. split; vm_compute; reflexivity.
  - intros i [<-|[<-|[<-|[]]]]; discriminate.
Defined.

(** C2, as stated, fails: bound to INT-999, which the store does not hold,
    a write to [package.json] (in no intent's scope) passes the check. *)
Lemma unresolved_intent_not_denied :
  boundTo (Demo.bound "INT-999" (Demo.withStore Demo.intentsYaml)) Demo.mockTask
    (JStr "INT-999")
  /\ HookEngine.findIntent [Demo.INT_001; Demo.INT_002; Demo.INT_003] (JStr "INT-999")
     = None
  /\ HookEngine.preToolExecution Demo.node "write_to_file"
       (Demo.write "/mock/cwd/package.json" JUndefined) Demo.mockTask
       (Demo.bound "INT-999" (Demo.withStore Demo.intentsYaml))
     = (Ok tt,
        addConsole (Demo.bound "INT-999" (Demo.withStore Demo.intentsYaml))
          [preLogLine "write_to_file";
           mkLog LevelWarn "[HookEngine] Intent INT-999 not found in yaml" None]).
Proof. evaluate. Qed.

(** C3 (amended): when the intent store is present but malformed, the
    authorization path raises no error and allows the pending
    [write_to_file].  A parse failure (an error of the parser, whose message
    is not a scope violation's) is written to [console.error]; a document
    that is not a list is treated as holding no intent and logged as
    [Intent <id> not found in yaml]. *)
Theorem malformed_store_is_allowed (host : Host) (st : State) (task : Task)
    (params : Params) (intentId : jsval) :
  boundTo st task intentId ->
  (forall e,
     storeYields host st task (Throw e) ->
     startsWith (message e) "Scope Violation" = false ->
     HookEngine.preToolExecution host "write_to_file" params task st
     = (Ok tt, addConsole st [preLogLine "write_to_file"; enforceErrorLine e]))
  /\ (storeYields host st task (Ok YamlOther) ->
      HookEngine.preToolExecution host "write_to_file" params task st
      = (Ok tt, addConsole st [preLogLine "write_to_file"; notFoundWarning intentId])).
Proof.
  intros Hb.
  rewrite (preToolExecution_bound host st task params intentId Hb).
  split.
  - intros e Hstore Hmsg.
    rewrite (enforceScope_parse_error host _ task intentId (p_path params) e
               (storeYields_addConsole host st task _ _ Hstore) Hmsg).
    rewrite addConsole_app. reflexivity.
  - intros Hstore.
    rewrite (enforceScope_not_found host _ task intentId (p_path params) YamlOther
               (storeYields_addConsole host st task _ _ Hstore) I).
    rewrite addConsole_app. reflexivity.
Qed.

Lemma malformed_store_is_allowed_witness :
  boundTo (Demo.bound "INT-001" (Demo.withStore Demo.brokenYaml)) Demo.mockTask
    (JStr "INT-001")
  /\ (exists e,
        storeYields Demo.node (Demo.bound "INT-001" (Demo.withStore Demo.brokenYaml))
          Demo.mockTask (Throw e)
        /\ fst (HookEngine.preToolExecution Demo.node "write_to_file"
                  (Demo.write "/mock/cwd/package.json" JUndefined) Demo.mockTask
                  (Demo.bound "INT-001" (Demo.withStore Demo.brokenYaml))) = Ok tt).
Proof.
  assert (Hb : boundTo (Demo.bound "INT-001" (Demo.withStore Demo.brokenYaml))
                 Demo.mockTask (JStr "INT-001")).
  { split; vm_compute; reflexivity. }
  split; [exact Hb|].
  assert (Hs : storeYields Demo.node
                 (Demo.bound "INT-001" (Demo.withStore Demo.brokenYaml)) Demo.mockTask
                 (Demo.yaml_parse Demo.brokenYaml)).
  { exists Demo.brokenYaml. split; vm_compute; reflexivity. }
  eexists. split; [exact Hs|].
  rewrite (proj1 (malformed_store_is_allowed Demo.node _ Demo.mockTask
                    (Demo.write "/mock/cwd/package.json" JUndefined) (JStr "INT-001")
                    Hb) _ Hs); reflexivity.
Defined.

(** C3, as stated, fails: with a store cut off inside a flow sequence, and
    with a store that is a mapping, a write to [package.json] passes the
    check and no error reaches the caller. *)
Lemma malformed_store_not_surfaced :
  parseYaml Demo.node Demo.brokenYaml
  = Throw (mkError "YAMLParseError"
             "Flow sequence in block collection must be sufficiently indented and end with a ]")
  /\ fst (HookEngine.preToolExecution Demo.node "write_to_file"
            (Demo.write "/mock/cwd/package.json" JUndefined) Demo.mockTask
            (Demo.bound "INT-001" (Demo.withStore Demo.brokenYaml))) = Ok tt
  /\ parseYaml Demo.node Demo.mappingYaml = Ok YamlOther
  /\ fst (HookEngine.preToolExecution Demo.node "write_to_file"
            (Demo.write "/mock/cwd/package.json" JUndefined) Demo.mockTask
            (Demo.bound "INT-001" (Demo.withStore Demo.mappingYaml))) = Ok tt.
Proof. evaluate. Qed.

(** ** The select-intent tool and the post-action hook *)

Section SelectIntent.

Variable host : Host.

Lemma execute_absent (st : State) (task : Task) (params : Params) :
  files st !! HookEngine.intentsPathOf host task = None ->
  SelectActiveIntentTool.execute host params task st
  = (Ok tt, addHandledError st "selecting active intent" noStoreError).
Proof.
  intros Hf.
  unfold SelectActiveIntentTool.execute, try_catch,
    SelectActiveIntentTool.execute_body, bind, fileExistsAtPath.
  rewrite bool_decide_eq_false_2; [reflexivity|].
  rewrite Hf. intros [x Hx]. discriminate.
Qed.

Lemma execute_present (st : State) (task : Task) (params : Params)
    (content : string) :
  files st !! HookEngine.intentsPathOf host task = Some content ->
  SelectActiveIntentTool.execute host params task st
  = try_catch
      (if negb (includes content (to_string (p_intent_id params))) then
         throw (new_Error ("Intent ID " ++ to_string (p_intent_id params)
                           ++ " not found in active_intents.yaml"))
       else
         do! SelectActiveIntentTool.pushToolResult
               (SelectActiveIntentTool.contextBlockOf content) in
         HookEngine.postToolExecution host "select_active_intent" params
           (JStr (SelectActiveIntentTool.contextBlockOf content)) task)
      (fun error => SelectActiveIntentTool.handleError "selecting active intent" error)
      st.
Proof.
  intros Hf.
  unfold SelectActiveIntentTool.execute, try_catch,
    SelectActiveIntentTool.execute_body, bind at 1. unfold fileExistsAtPath.
  rewrite bool_decide_eq_true_2 by (rewrite Hf; eauto). cbn [negb].
  unfold bind at 1. unfold readFile. rewrite Hf. reflexivity.
Qed.

Lemma postToolExecution_select_falsy (st : State) (task : Task) (params : Params)
    (result : jsval) :
  truthy (p_intent_id params) = false ->
  HookEngine.postToolExecution host "select_active_intent" params result task st
  = (Ok tt, addConsole st [postLogLine "select_active_intent"]).
Proof.
  intros Hf.
  unfold HookEngine.postToolExecution, bind, console_log, console_emit.
  cbn. rewrite Hf. reflexivity.
Qed.

Lemma postToolExecution_write (st : State) (task : Task) (params : Params)
    (result : jsval) :
  HookEngine.postToolExecution host "write_to_file" params result task st
  = HookEngine.traceAction host "write_to_file" params result task
      (addConsole st [postLogLine "write_to_file"]).
Proof. reflexivity. Qed.

Lemma traceAction_unbound (st : State) (task : Task) (params : Params)
    (result : jsval) (toolName : string) :
  unbound st task ->
  HookEngine.traceAction host toolName params result task st = (Ok tt, st).
Proof.
  unfold unbound. intros Hu.
  unfold HookEngine.traceAction, bind, activeIntents_get. rewrite Hu. reflexivity.
Qed.

End SelectIntent.

(** C4 (amended): if the intent store file does not exist, the scope check
    loads nothing and raises no error; select-intent does not succeed (it
    reports [No active intents found], returns no context block and binds
    nothing); and for a session that is bound all the same, the pre-action
    hook allows every [write_to_file]. *)
Theorem absent_store_allows_writes (host : Host) (st : State) (task : Task) :
  files st !! HookEngine.intentsPathOf host task = None ->
  (forall intentId filePath,
     HookEngine.enforceScope host intentId filePath task st = (Ok tt, st))
  /\ (forall params,
        SelectActiveIntentTool.execute host params task st
        = (Ok tt, addHandledError st "selecting active intent" noStoreError))
  /\ (forall params intentId,
        boundTo st task intentId ->
        HookEngine.preToolExecution host "write_to_file" params task st
        = (Ok tt, addConsole st [preLogLine "write_to_file"])).
Proof.
  intros Hf. split; [|split].
  - intros intentId filePath. apply enforceScope_absent. exact Hf.
  - intros params. apply execute_absent. exact Hf.
  - intros params intentId Hb.
    rewrite (preToolExecution_bound host st task params intentId Hb).
    apply enforceScope_absent. exact Hf.
Qed.

Lemma absent_store_allows_writes_witness :
  files (Demo.bound "INT-001" Demo.withoutStore)
    !! HookEngine.intentsPathOf Demo.node Demo.mockTask = None
  /\ SelectActiveIntentTool.execute Demo.node
       (mkParams JUndefined JUndefined (JStr "INT-001")) Demo.mockTask
       (Demo.bound "INT-001" Demo.withoutStore)
     = (Ok tt,
        addHandledError (Demo.bound "INT-001" Demo.withoutStore)
          "selecting active intent" noStoreError).
Proof.
  assert (Hf : files (Demo.bound "INT-001" Demo.withoutStore)
                 !! HookEngine.intentsPathOf Demo.node Demo.mockTask = None).
  { vm_compute. reflexivity. }
  split; [exact Hf|].
  apply (proj1 (proj2 (absent_store_allows_writes Demo.node _ Demo.mockTask Hf))).
Defined.

(** C4, as stated, fails: with no store on disk and the session bound to
    INT-001, a write to [package.json] passes the pre-action hook. *)
Lemma absent_store_write_authorized :
  files (Demo.bound "INT-001" Demo.withoutStore) = ∅
  /\ boundTo (Demo.bound "INT-001" Demo.withoutStore) Demo.mockTask (JStr "INT-001")
  /\ fst (HookEngine.preToolExecution Demo.node "write_to_file"
            (Demo.write "/mock/cwd/package.json" JUndefined) Demo.mockTask
            (Demo.bound "INT-001" Demo.withoutStore)) = Ok tt.
Proof. evaluate. Qed.

(** C10: if the post-action hook runs for [select_active_intent] with an
    [intent_id] that is missing, empty or falsy in any other way, the
    registry is as before: no binding is created, overwritten or removed
    for any session.  The hook writes its console line and nothing else. *)
Theorem falsy_intent_id_leaves_registry (host : Host) (st : State) (task : Task)
    (params : Params) (result : jsval) :
  truthy (p_intent_id params) = false ->
  activeIntents
    (snd (HookEngine.postToolExecution host "select_active_intent" params result
            task st))
  = activeIntents st
  /\ HookEngine.postToolExecution host "select_active_intent" params result task st
     = (Ok tt, addConsole st [postLogLine "select_active_intent"]).
Proof.
  intros Hf. rewrite (postToolExecution_select_falsy host st task params result Hf).
  split; reflexivity.
Qed.

Lemma falsy_intent_id_leaves_registry_witness :
  truthy (JStr "") = false
  /\ activeIntents
       (snd (HookEngine.postToolExecution Demo.node "select_active_intent"
               (mkParams JUndefined JUndefined (JStr "")) (JStr "Selected")
               Demo.mockTask (Demo.bound "INT-001" (Demo.withStore Demo.intentsYaml))))
     = activeIntents (Demo.bound "INT-001" (Demo.withStore Demo.intentsYaml)).
Proof.
  split; [reflexivity|].
  apply (falsy_intent_id_leaves_registry Demo.node
           (Demo.bound "INT-001" (Demo.withStore Demo.intentsYaml)) Demo.mockTask
           (mkParams JUndefined JUndefined (JStr "")) (JStr "Selected")).
  reflexivity.
Defined.

Lemma falsy_values (v : jsval) :
  truthy v = false
  <-> v = JUndefined \/ v = JNull \/ v = JNaN \/ v = JBool false
      \/ v = JNum 0 \/ v = JStr "".
Proof.
  split.
  - destruct v as [| |b|n| |s]; cbn; intros H; auto.
    + destruct b; [discriminate|]. auto.
    + apply negb_false_iff, Z.eqb_eq in H. subst. auto 6.
    + apply negb_false_iff, String.eqb_eq in H. subst. auto 6.
  - intros [->|[->|[->|[->|[->| ->]]]]]; reflexivity.
Qed.

(** ** The trace *)

Section Trace.

Variable host : Host.

Lemma traceAction_bound (st : State) (task : Task) (params : Params)
    (result : jsval) (toolName : string) (v : jsval) (s : string)
    (g : GitMetadata) :
  boundTo st task v ->
  or_else (p_content params) (JStr "") = JStr s ->
  getGitMetadata host (cwd task) = Ok g ->
  unwritable st !! HookEngine.traceFileOf host task = None ->
  HookEngine.traceAction host toolName params result task st
  = (Ok tt,
     withAppended st (HookEngine.traceFileOf host task)
       {| timestamp := now st;
          intent_id := v;
          tool := toolName;
          params_path := p_path params;
          params_content_hash := sha256_hex host s;
          result_summary :=
            match result with
            | JStr r => substring 0 100 r
            | _ => "Result too large/complex"
            end;
          file_hash := sha256_hex host s;
          git := g |}).
Proof.
  intros [Hb Ht] Hc Hg Hw.
  unfold HookEngine.traceAction, bind, activeIntents_get, lift.
  rewrite Hb. cbn [from_option Datatypes.id]. rewrite Ht. cbn [negb].
  rewrite Hc, Hg. cbn. unfold appendFile. rewrite Hw. reflexivity.
Qed.

(** The three ways [traceAction] fails for a bound session: each throws
    before anything is written. *)
Lemma traceAction_fails (st : State) (task : Task) (params : Params)
    (result : jsval) (toolName : string) (v : jsval) :
  boundTo st task v ->
  ((forall s, or_else (p_content params) (JStr "") <> JStr s) ->
   HookEngine.traceAction host toolName params result task st
   = (Throw hashDataError, st))
  /\ (forall s e,
        or_else (p_content params) (JStr "") = JStr s ->
        getGitMetadata host (cwd task) = Throw e ->
        HookEngine.traceAction host toolName params result task st = (Throw e, st))
  /\ (forall s g e,
        or_else (p_content params) (JStr "") = JStr s ->
        getGitMetadata host (cwd task) = Ok g ->
        unwritable st !! HookEngine.traceFileOf host task = Some e ->
        HookEngine.traceAction host toolName params result task st = (Throw e, st)).
Proof.
  intros [Hb Ht].
  unfold HookEngine.traceAction, bind, activeIntents_get, lift.
  rewrite Hb. cbn [from_option Datatypes.id]. rewrite Ht. cbn [negb].
  split; [|split].
  - intros Hno.
    destruct (or_else (p_content params) (JStr "")) as [| |b|n| |s]; try reflexivity.
    exfalso. apply (Hno s). reflexivity.
  - intros s e Hc Hg. rewrite Hc, Hg. reflexivity.
  - intros s g e Hc Hg Hw. rewrite Hc, Hg. cbn. unfold appendFile. rewrite Hw.
    reflexivity.
Qed.

Lemma traceOf_withAppended (st : State) (task : Task) (entry : TraceEntry) :
  traceOf host (withAppended st (HookEngine.traceFileOf host task) entry) task
  = (traceOf host st task ++ [entry])%list.
Proof. unfold traceOf, withAppended. cbn. rewrite lookup_insert_eq. reflexivity. Qed.

Lemma handle_denied (st : State) (task : Task) (params : Params)
    (toolName : string) (execute : Params -> Task -> M jsval) (e : js_error) :
  fst (HookEngine.preToolExecution host toolName params task st) = Throw e ->
  BaseTool.handle host toolName execute params task st
  = (Throw e, snd (HookEngine.preToolExecution host toolName params task st)).
Proof.
  unfold BaseTool.handle, bind.
  destruct (HookEngine.preToolExecution host toolName params task st) as [[[]|e'] st'];
    cbn; intros H; congruence.
Qed.

End Trace.

(** C7 (amended): when no intent is bound for the session and
    [write_to_file] is invoked, the pre-action hook allows the action and
    emits the warning [WRITE attempted without Active Intent], and the
    post-action hook writes no trace record.  The engine has no strict
    mode: nothing configures this hook to deny the write. *)
Theorem unbound_write_allowed_untraced (host : Host) (st : State) (task : Task)
    (params : Params) (result : jsval) :
  unbound st task ->
  HookEngine.preToolExecution host "write_to_file" params task st
  = (Ok tt, addConsole st [preLogLine "write_to_file"; unboundWarning])
  /\ HookEngine.postToolExecution host "write_to_file" params result task st
     = (Ok tt, addConsole st [postLogLine "write_to_file"])
  /\ appended
       (snd (HookEngine.postToolExecution host "write_to_file" params result task st))
     = appended st.
Proof.
  intros Hu. split; [|split].
  - apply preToolExecution_unbound. exact Hu.
  - rewrite postToolExecution_write. apply traceAction_unbound. exact Hu.
  - rewrite postToolExecution_write.
    rewrite traceAction_unbound by exact Hu. reflexivity.
Qed.

Lemma unbound_write_allowed_untraced_witness :
  unbound (Demo.withStore Demo.intentsYaml) Demo.mockTask
  /\ HookEngine.preToolExecution Demo.node "write_to_file"
       (Demo.write "/mock/cwd/any.ts" JUndefined) Demo.mockTask
       (Demo.withStore Demo.intentsYaml)
     = (Ok tt,
        addConsole (Demo.withStore Demo.intentsYaml)
          [preLogLine "write_to_file"; unboundWarning]).
Proof.
  assert (Hu : unbound (Demo.withStore Demo.intentsYaml) Demo.mockTask).
  { vm_compute. reflexivity. }
  split; [exact Hu|].
  apply (proj1 (unbound_write_allowed_untraced Demo.node _ Demo.mockTask
                  (Demo.write "/mock/cwd/any.ts" JUndefined) JUndefined Hu)).
Defined.

(** C7, as stated, fails in its last part: a write without a bound intent
    passes the hook, and in no host, state, parameters or task is it
    denied, so no strict mode is supported. *)
Lemma strict_mode_not_supported :
  fst (HookEngine.preToolExecution Demo.node "write_to_file"
         (Demo.write "/mock/cwd/any.ts" JUndefined) Demo.mockTask
         (Demo.withStore Demo.intentsYaml)) = Ok tt
  /\ ~ strictModeSupported.
Proof.
  split; [vm_compute; reflexivity|].
  intros (host & st & params & task & Hu & e & He).
  rewrite (preToolExecution_unbound host st task params Hu) in He. discriminate.
Qed.

(** A denied action under [BaseTool.handle]: the error of the pre-action
    hook is the result, neither the tool nor the post-action hook runs, and
    every trace file is as before. *)
Lemma handle_denied_leaves_trace (host : Host) (st : State) (task : Task)
    (params : Params) (toolName : string) (execute : Params -> Task -> M jsval)
    (e : js_error) :
  fst (HookEngine.preToolExecution host toolName params task st) = Throw e ->
  fst (BaseTool.handle host toolName execute params task st) = Throw e
  /\ appended (snd (BaseTool.handle host toolName execute params task st))
     = appended st.
Proof.
  intros He. rewrite (handle_denied host st task params toolName execute e He).
  split; [reflexivity|]. cbn [snd].
  destruct (preToolExecution_frame host st task params toolName) as [ls Hls].
  rewrite Hls. reflexivity.
Qed.

Lemma contentIs_or_else (params : Params) (s : string) :
  contentIs params s -> or_else (p_content params) (JStr "") = JStr s.
Proof.
  unfold or_else. intros [Hs | [Hf ->]].
  - rewrite Hs. cbn. destruct (String.eqb s "") eqn:E; cbn; [|reflexivity].
    apply String.eqb_eq in E. subst. reflexivity.
  - rewrite Hf. reflexivity.
Qed.

Lemma not_string_or_else (params : Params) :
  truthy (p_content params) = true ->
  (forall s, p_content params <> JStr s) ->
  forall s, or_else (p_content params) (JStr "") <> JStr s.
Proof. intros Ht Hno s. unfold or_else. rewrite Ht. apply Hno. Qed.

(** C8 (amended): for a [write_to_file] of a session bound to an intent, the
    post-action hook appends exactly one trace record, whose content
    fingerprint is the SHA-256 digest of the content payload, or of the
    empty input when the tool supplies no content, provided the content is
    a string or falsy, the git helper returns and the storage accepts the
    append.  When the content is a truthy value that is not a string, when
    the git helper throws, or when the append fails, the hook throws and
    appends nothing.  The pre-action hook never appends a record, whatever
    it returns; the post-action hook does not consult its decision, and
    called after a denial it appends the record all the same. *)
Theorem post_hook_traces_bound_writes (host : Host) (st : State) (task : Task) :
  (forall params result v s g,
     boundTo st task v ->
     contentIs params s ->
     getGitMetadata host (cwd task) = Ok g ->
     unwritable st !! HookEngine.traceFileOf host task = None ->
     exists entry,
       HookEngine.postToolExecution host "write_to_file" params result task st
       = (Ok tt,
          withAppended (addConsole st [postLogLine "write_to_file"])
            (HookEngine.traceFileOf host task) entry)
       /\ traceOf host
            (snd (HookEngine.postToolExecution host "write_to_file" params result
                    task st)) task
          = (traceOf host st task ++ [entry])%list
       /\ params_content_hash entry = sha256_hex host s
       /\ file_hash entry = sha256_hex host s
       /\ intent_id entry = v
       /\ tool entry = "write_to_file"
       /\ params_path entry = p_path params
       /\ git entry = g)
  /\ (forall params result v,
        boundTo st task v ->
        truthy (p_content params) = true ->
        (forall s, p_content params <> JStr s) ->
        HookEngine.postToolExecution host "write_to_file" params result task st
        = (Throw hashDataError, addConsole st [postLogLine "write_to_file"]))
  /\ (forall params result v s e,
        boundTo st task v ->
        contentIs params s ->
        getGitMetadata host (cwd task) = Throw e ->
        HookEngine.postToolExecution host "write_to_file" params result task st
        = (Throw e, addConsole st [postLogLine "write_to_file"]))
  /\ (forall params result v s g e,
        boundTo st task v ->
        contentIs params s ->
        getGitMetadata host (cwd task) = Ok g ->
        unwritable st !! HookEngine.traceFileOf host task = Some e ->
        HookEngine.postToolExecution host "write_to_file" params result task st
        = (Throw e, addConsole st [postLogLine "write_to_file"]))
  /\ (forall toolName params,
        appended (snd (HookEngine.preToolExecution host toolName params task st))
        = appended st)
  /\ (forall params result s g e,
        fst (HookEngine.preToolExecution host "write_to_file" params task st)
        = Throw e ->
        contentIs params s ->
        getGitMetadata host (cwd task) = Ok g ->
        unwritable st !! HookEngine.traceFileOf host task = None ->
        exists entry,
          traceOf host
            (snd (HookEngine.postToolExecution host "write_to_file" params result
                    task
                    (snd (HookEngine.preToolExecution host "write_to_file" params
                            task st))))
            task
          = (traceOf host st task ++ [entry])%list).
Proof.
  assert (Hone : forall st0 params result v s g,
            boundTo st0 task v ->
            contentIs params s ->
            getGitMetadata host (cwd task) = Ok g ->
            unwritable st0 !! HookEngine.traceFileOf host task = None ->
            HookEngine.postToolExecution host "write_to_file" params result task st0
            = (Ok tt,
               withAppended (addConsole st0 [postLogLine "write_to_file"])
                 (HookEngine.traceFileOf host task)
                 {| timestamp := now st0;
                    intent_id := v;
                    tool := "write_to_file";
                    params_path := p_path params;
                    params_content_hash := sha256_hex host s;
                    result_summary :=
                      match result with
                      | JStr r => substring 0 100 r
                      | _ => "Result too large/complex"
                      end;
                    file_hash := sha256_hex host s;
                    git := g |})).
  { intros st0 params result v s g Hb Hc Hg Hw.
    rewrite postToolExecution_write.
    apply (traceAction_bound host (addConsole st0 [postLogLine "write_to_file"])
             task params result "write_to_file" v s g Hb
             (contentIs_or_else params s Hc) Hg Hw). }
  split; [|split; [|split; [|split; [|split]]]].
  - intros params result v s g Hb Hc Hg Hw.
    rewrite (Hone st params result v s g Hb Hc Hg Hw).
    eexists. split; [reflexivity|]. split.
    + cbn [snd]. apply (traceOf_withAppended host (addConsole st _) task).
    + cbn. repeat split; reflexivity.
  - intros params result v Hb Ht Hno.
    rewrite postToolExecution_write.
    apply (proj1 (traceAction_fails host
                    (addConsole st [postLogLine "write_to_file"]) task params result
                    "write_to_file" v Hb)).
    apply not_string_or_else; assumption.
  - intros params result v s e Hb Hc Hg.
    rewrite postToolExecution_write.
    apply (proj1 (proj2 (traceAction_fails host
                           (addConsole st [postLogLine "write_to_file"]) task params
                           result "write_to_file" v Hb))
             s e (contentIs_or_else params s Hc) Hg).
  - intros params result v s g e Hb Hc Hg Hw.
    rewrite postToolExecution_write.
    apply (proj2 (proj2 (traceAction_fails host
                           (addConsole st [postLogLine "write_to_file"]) task params
                           result "write_to_file" v Hb))
             s g e (contentIs_or_else params s Hc) Hg Hw).
  - intros toolName params.
    destruct (preToolExecution_frame host st task params toolName) as [ls Hls].
    rewrite Hls. reflexivity.
  - intros params result s g e He Hc Hg Hw.
    destruct (truthy (default JUndefined (activeIntents st !! taskId task))) eqn:Ht.
    + destruct (activeIntents st !! taskId task) as [v|] eqn:Hb; [|discriminate].
      destruct (preToolExecution_frame host st task params "write_to_file")
        as [ls Hls].
      rewrite Hls.
      rewrite (Hone (addConsole st ls) params result v s g
                 (conj Hb Ht) Hc Hg Hw).
      eexists. cbn [snd].
      apply (traceOf_withAppended host (addConsole (addConsole st ls) _) task).
    + rewrite (preToolExecution_unbound host st task params Ht) in He.
      discriminate.
Qed.

Lemma post_hook_traces_bound_writes_witness :
  boundTo (Demo.bound "INT-001" (Demo.withStore Demo.intentsYaml)) Demo.mockTask
    (JStr "INT-001")
  /\ contentIs (Demo.write "/mock/cwd/src/hooks/test.ts" (JStr "const x = 1;"))
       "const x = 1;"
  /\ exists entry,
       traceOf Demo.node
         (snd (HookEngine.postToolExecution Demo.node "write_to_file"
                 (Demo.write "/mock/cwd/src/hooks/test.ts" (JStr "const x = 1;"))
                 (JStr "File written") Demo.mockTask
                 (Demo.bound "INT-001" (Demo.withStore Demo.intentsYaml))))
         Demo.mockTask
       = [entry]
       /\ params_content_hash entry
          = "3f41cbb303012f33212c92326b27f6cc604fd414e20315cb10f2be7f1f6bb83c"
       /\ intent_id entry = JStr "INT-001".
Proof.
  assert (Hb : boundTo (Demo.bound "INT-001" (Demo.withStore Demo.intentsYaml))
                 Demo.mockTask (JStr "INT-001")).
  { split; vm_compute; reflexivity. }
  assert (Hc : contentIs (Demo.write "/mock/cwd/src/hooks/test.ts" (JStr "const x = 1;"))
                 "const x = 1;") by (left; reflexivity).
  split; [exact Hb|]. split; [exact Hc|].
  destruct (proj1 (post_hook_traces_bound_writes Demo.node
                     (Demo.bound "INT-001" (Demo.withStore Demo.intentsYaml))
                     Demo.mockTask)
              (Demo.write "/mock/cwd/src/hooks/test.ts" (JStr "const x = 1;"))
              (JStr "File written") (JStr "INT-001") "const x = 1;"
              (mkGit "main" "0000000") Hb Hc eq_refl eq_refl)
    as (entry & _ & Htrace & Hhash & _ & Hid & _).
  exists entry. split; [exact Htrace|]. split; [|exact Hid].
  rewrite Hhash. vm_compute. reflexivity.
Defined.

(** C8, as stated, fails three ways, the session bound to INT-001.  A write
    to [src/hooks/test.ts] with content 42 is authorized, and the
    post-action hook throws and leaves no record.  The same write with a
    string content on a full disk is authorized, and the hook throws and
    leaves no record.  A write to [package.json] is denied, and the
    post-action hook called for it appends one record. *)
Lemma authorized_write_untraced_and_denied_write_traced :
  fst (HookEngine.preToolExecution Demo.node "write_to_file"
         (Demo.write "/mock/cwd/src/hooks/test.ts" (JNum 42)) Demo.mockTask
         (Demo.bound "INT-001" (Demo.withStore Demo.intentsYaml))) = Ok tt
  /\ fst (HookEngine.postToolExecution Demo.node "write_to_file"
            (Demo.write "/mock/cwd/src/hooks/test.ts" (JNum 42))
            (JStr "File written") Demo.mockTask
            (Demo.bound "INT-001" (Demo.withStore Demo.intentsYaml)))
     = Throw hashDataError
  /\ recordsAt
       (snd (HookEngine.postToolExecution Demo.node "write_to_file"
               (Demo.write "/mock/cwd/src/hooks/test.ts" (JNum 42))
               (JStr "File written") Demo.mockTask
               (Demo.bound "INT-001" (Demo.withStore Demo.intentsYaml))))
       Demo.tracePath = []
  /\ fst (HookEngine.preToolExecution Demo.node "write_to_file"
            (Demo.write "/mock/cwd/src/hooks/test.ts" (JStr "const x = 1;"))
            Demo.mockTask
            (Edge.diskFull (Demo.bound "INT-001" (Demo.withStore Demo.intentsYaml))))
     = Ok tt
  /\ fst (HookEngine.postToolExecution Demo.node "write_to_file"
            (Demo.write "/mock/cwd/src/hooks/test.ts" (JStr "const x = 1;"))
            (JStr "File written") Demo.mockTask
            (Edge.diskFull (Demo.bound "INT-001" (Demo.withStore Demo.intentsYaml))))
     = Throw (new_Error "ENOSPC: no space left on device, write")
  /\ recordsAt
       (snd (HookEngine.postToolExecution Demo.node "write_to_file"
               (Demo.write "/mock/cwd/src/hooks/test.ts" (JStr "const x = 1;"))
               (JStr "File written") Demo.mockTask
               (Edge.diskFull
                  (Demo.bound "INT-001" (Demo.withStore Demo.intentsYaml)))))
       Demo.tracePath = []
  /\ fst (HookEngine.preToolExecution Demo.node "write_to_file"
            (Demo.write "/mock/cwd/package.json" (JStr "{}")) Demo.mockTask
            (Demo.bound "INT-001" (Demo.withStore Demo.intentsYaml)))
     = Throw (scopeViolationError (JStr "INT-001") "package.json"
                ["src/hooks/"; "docs/README.md"])
  /\ length
       (recordsAt
          (snd (HookEngine.postToolExecution Demo.node "write_to_file"
                  (Demo.write "/mock/cwd/package.json" (JStr "{}"))
                  (JStr "File written") Demo.mockTask
                  (snd (HookEngine.preToolExecution Demo.node "write_to_file"
                          (Demo.write "/mock/cwd/package.json" (JStr "{}"))
                          Demo.mockTask
                          (Demo.bound "INT-001" (Demo.withStore Demo.intentsYaml))))))
          Demo.tracePath)
     = 1.
Proof. evaluate. Qed.

(** ** The select-intent tool on a present store *)

Lemma execute_selects (host : Host) (st : State) (task : Task) (params : Params)
    (content : string) :
  files st !! HookEngine.intentsPathOf host task = Some content ->
  includes content (to_string (p_intent_id params)) = true ->
  toolResults (snd (SelectActiveIntentTool.execute host params task st))
  = (toolResults st ++ [SelectActiveIntentTool.contextBlockOf content])%list
  /\ handledErrors (snd (SelectActiveIntentTool.execute host params task st))
     = handledErrors st.
Proof.
  intros Hf Hin. rewrite (execute_present host st task params content Hf).
  unfold try_catch. rewrite Hin. cbn [negb].
  unfold bind at 1. unfold SelectActiveIntentTool.pushToolResult.
  unfold HookEngine.postToolExecution, bind, console_log, console_emit,
    activeIntents_set.
  cbn. destruct (truthy (p_intent_id params)); cbn; split; reflexivity.
Qed.

(** C9 (the code at the failing inputs): the store holds INT-001, INT-002
    and INT-003.  Selecting [INT-00], the id of no intent, succeeds: no
    error is handled, a context block is returned and the session is bound
    to [INT-00].  Selecting [INT-001] returns the whole file as the context
    block, with the constraints of INT-002 in it. *)
Theorem select_intent_substring_and_whole_file :
  parseYaml Demo.node Demo.intentsYaml
  = Ok (YamlSeq [Demo.INT_001; Demo.INT_002; Demo.INT_003])
  /\ HookEngine.findIntent [Demo.INT_001; Demo.INT_002; Demo.INT_003] (JStr "INT-00")
     = None
  /\ handledErrors
       (snd (SelectActiveIntentTool.execute Demo.node
               (mkParams JUndefined JUndefined (JStr "INT-00")) Demo.mockTask
               (Demo.withStore Demo.intentsYaml))) = []
  /\ toolResults
       (snd (SelectActiveIntentTool.execute Demo.node
               (mkParams JUndefined JUndefined (JStr "INT-00")) Demo.mockTask
               (Demo.withStore Demo.intentsYaml)))
     = [SelectActiveIntentTool.contextBlockOf Demo.intentsYaml]
  /\ activeIntents
       (snd (SelectActiveIntentTool.execute Demo.node
               (mkParams JUndefined JUndefined (JStr "INT-00")) Demo.mockTask
               (Demo.withStore Demo.intentsYaml))) !! "test-task-id"
     = Some (JStr "INT-00")
  /\ toolResults
       (snd (SelectActiveIntentTool.execute Demo.node
               (mkParams JUndefined JUndefined (JStr "INT-001")) Demo.mockTask
               (Demo.withStore Demo.intentsYaml)))
     = [SelectActiveIntentTool.contextBlockOf Demo.intentsYaml]
  /\ constraints Demo.INT_002 = ["Keep the changelog current"]
  /\ includes (SelectActiveIntentTool.contextBlockOf Demo.intentsYaml)
       "Keep the changelog current" = true.
Proof. evaluate. Qed.

(** ** The scenarios of the test suite *)

Example sha256_constants :
  length Sha256.primes = 64%nat
  /\ nth 0 Sha256.K 0%Z = 0x428a2f98%Z
  /\ nth 63 Sha256.K 0%Z = 0xc67178f2%Z
  /\ nth 0 Sha256.H0 0%Z = 0x6a09e667%Z
  /\ nth 7 Sha256.H0 0%Z = 0x5be0cd19%Z.
Proof. evaluate. Qed.

Example sha256_empty :
  Sha256.sha256_hex ""
  = "e3b0c44298fc1c149afbf4c8996fb92427ae41e4649b934ca495991b7852b855".
Proof. evaluate. Qed.

Example sha256_abc :
  Sha256.sha256_hex "abc"
  = "ba7816bf8f01cfea414140de5dae2223b00361a396177a9cb410ff61f20015ad".
Proof. evaluate. Qed.

Example sha256_two_blocks :
  Sha256.sha256_hex
    "aaaaaaaaaaaaaaaaaaaaaaaaaaaaaaaaaaaaaaaaaaaaaaaaaaaaaaaaaaaaaaaaaaaaaa"
  = "6bd5e5034855a11241f0dee8fc72850ffd9955b28347a86428b5fa19119f6ad0".
Proof. evaluate. Qed.

Example posix_paths :
  Posix.join_paths ["/mock/cwd"; ".orchestration"; "active_intents.yaml"]
  = Demo.storePath
  /\ Posix.join_paths ["/mock/cwd"; ".orchestration"; "agent_trace.jsonl"]
     = Demo.tracePath
  /\ Posix.relative "/mock/cwd" "/mock/cwd" "/mock/cwd/src/hooks/test.ts"
     = "src/hooks/test.ts"
  /\ Posix.relative "/mock/cwd" "/mock/cwd" "/mock/cwd/a/../../x" = "../x"
  /\ Posix.relative "/mock/cwd" "/mock/cwd" "/mock/cwd" = ""
  /\ Posix.relative "/mock/cwd" "/mock/cwd/a/b" "/mock/cwd/a/c/d" = "../c/d".
Proof. evaluate. Qed.

(** "allows authorized file paths" *)
Example scenario_authorized_paths :
  fst (HookEngine.preToolExecution Demo.node "write_to_file"
         (Demo.write "/mock/cwd/src/hooks/test.ts" JUndefined) Demo.mockTask
         (Demo.bound "INT-001" (Demo.withStore Demo.intentsYaml))) = Ok tt
  /\ fst (HookEngine.preToolExecution Demo.node "write_to_file"
            (Demo.write "/mock/cwd/docs/README.md" JUndefined) Demo.mockTask
            (Demo.bound "INT-001" (Demo.withStore Demo.intentsYaml))) = Ok tt.
Proof. evaluate. Qed.

(** "throws Scope Violation for unauthorized paths" *)
Example scenario_scope_violation :
  fst (HookEngine.preToolExecution Demo.node "write_to_file"
         (Demo.write "/mock/cwd/package.json" JUndefined) Demo.mockTask
         (Demo.bound "INT-001" (Demo.withStore Demo.intentsYaml)))
  = Throw (scopeViolationError (JStr "INT-001") "package.json"
             ["src/hooks/"; "docs/README.md"]).
Proof. evaluate. Qed.

(** "logs actions to agent_trace.jsonl in postToolExecution": bound with
    no store on disk, as the test runs it. *)
Example scenario_trace :
  appended
    (snd (HookEngine.postToolExecution Demo.node "write_to_file"
            (Demo.write "test.ts" (JStr "const x = 1;")) (JStr "File written")
            Demo.mockTask (Demo.bound "INT-001" Demo.withoutStore)))
  !! Demo.tracePath
  = Some [ {| timestamp := "2026-02-20T10:00:00.000Z";
              intent_id := JStr "INT-001";
              tool := "write_to_file";
              params_path := JStr "test.ts";
              params_content_hash :=
                "3f41cbb303012f33212c92326b27f6cc604fd414e20315cb10f2be7f1f6bb83c";
              result_summary := "File written";
              file_hash :=
                "3f41cbb303012f33212c92326b27f6cc604fd414e20315cb10f2be7f1f6bb83c";
              git := mkGit "main" "0000000" |} ].
Proof. evaluate. Qed.

(** * Further properties of the hooks *)

(** ** How the hooks change the state *)

Section Frames.

Variable host : Host.

Lemma enforceScope_throws (st : State) (task : Task) (v filePath : jsval)
    (e : js_error) :
  fst (HookEngine.enforceScope host v filePath task st) = Throw e ->
  startsWith (message e) "Scope Violation" = true
  /\ is_Some (files st !! HookEngine.intentsPathOf host task)
  /\ snd (HookEngine.enforceScope host v filePath task st) = st.
Proof.
  destruct (files st !! HookEngine.intentsPathOf host task) as [content|] eqn:Hf.
  - rewrite (enforceScope_present host st task v filePath content Hf).
    unfold try_catch, bind, lift.
    destruct (parseYaml host content) as [doc|e'].
    + destruct (match doc with
                | YamlSeq l => HookEngine.findIntent l v
                | YamlOther => None
                end) as [intent|]; [|cbn; discriminate].
      destruct filePath; cbn; try discriminate.
      destruct (HookEngine.isAllowed _ _ _); cbn; [discriminate|].
      intros [= <-]. split; [reflexivity|]. split; [eauto|reflexivity].
    + destruct (startsWith (message e') "Scope Violation") eqn:Hm; cbn;
        [|discriminate].
      intros [= <-]. split; [exact Hm|]. split; [eauto|reflexivity].
  - rewrite (enforceScope_absent host st task v filePath Hf). cbn. discriminate.
Qed.

Lemma enforceScope_outcome_files (st1 st2 : State) (task : Task)
    (v filePath : jsval) :
  files st1 = files st2 ->
  fst (HookEngine.enforceScope host v filePath task st1)
  = fst (HookEngine.enforceScope host v filePath task st2).
Proof.
  intros Hfiles.
  destruct (files st1 !! HookEngine.intentsPathOf host task) as [content|] eqn:Hf.
  - assert (Hf2 : files st2 !! HookEngine.intentsPathOf host task = Some content)
      by (rewrite <- Hfiles; exact Hf).
    rewrite (enforceScope_present host st1 task v filePath content Hf).
    rewrite (enforceScope_present host st2 task v filePath content Hf2).
    unfold try_catch, bind, lift.
    destruct (parseYaml host content) as [doc|e'].
    + destruct (match doc with
                | YamlSeq l => HookEngine.findIntent l v
                | YamlOther => None
                end) as [intent|]; [|reflexivity].
      destruct filePath; cbn; try reflexivity.
      destruct (HookEngine.isAllowed _ _ _); cbn; reflexivity.
    + destruct (startsWith (message e') "Scope Violation"); reflexivity.
  - assert (Hf2 : files st2 !! HookEngine.intentsPathOf host task = None)
      by (rewrite <- Hfiles; exact Hf).
    rewrite (enforceScope_absent host st1 task v filePath Hf).
    rewrite (enforceScope_absent host st2 task v filePath Hf2). reflexivity.
Qed.

(** The three cases of the pre-action hook. *)
Lemma preToolExecution_cases (st : State) (task : Task) (params : Params)
    (toolName : string) :
  (String.eqb toolName "write_to_file" = false
   /\ HookEngine.preToolExecution host toolName params task st
      = (Ok tt, addConsole st [preLogLine toolName]))
  \/ (toolName = "write_to_file" /\ unbound st task
      /\ HookEngine.preToolExecution host toolName params task st
         = (Ok tt, addConsole st [preLogLine "write_to_file"; unboundWarning]))
  \/ (toolName = "write_to_file"
      /\ exists v, boundTo st task v
         /\ HookEngine.preToolExecution host toolName params task st
            = HookEngine.enforceScope host v (p_path params) task
                (addConsole st [preLogLine "write_to_file"])).
Proof.
  destruct (String.eqb toolName "write_to_file") eqn:Hn.
  - apply String.eqb_eq in Hn. subst toolName. right.
    destruct (truthy (default JUndefined (activeIntents st !! taskId task))) eqn:Ht.
    + right. split; [reflexivity|].
      destruct (activeIntents st !! taskId task) as [v|] eqn:Hb; [|discriminate].
      exists v. split; [split; assumption|].
      apply preToolExecution_bound. split; assumption.
    + left. split; [reflexivity|]. split; [exact Ht|].
      apply preToolExecution_unbound. exact Ht.
  - left. split; [reflexivity|]. apply preToolExecution_other. exact Hn.
Qed.

(** The cases of [traceAction]: it returns at once, fails before writing,
    or appends one record. *)
Lemma traceAction_cases (st : State) (task : Task) (params : Params)
    (result : jsval) (toolName : string) :
  snd (HookEngine.traceAction host toolName params result task st) = st
  \/ exists entry,
       HookEngine.traceAction host toolName params result task st
       = (Ok tt, withAppended st (HookEngine.traceFileOf host task) entry)
       /\ boundTo st task (intent_id entry)
       /\ result_summary entry
          = match result with
            | JStr r => substring 0 100 r
            | _ => "Result too large/complex"
            end.
Proof.
  unfold HookEngine.traceAction, bind, activeIntents_get, lift.
  destruct (activeIntents st !! taskId task) as [v|] eqn:Hb;
    cbn [from_option Datatypes.id];
    [|left; reflexivity].
  destruct (truthy v) eqn:Ht; cbn [negb]; [|left; reflexivity].
  destruct (or_else (p_content params) (JStr "")); cbn; try (left; reflexivity).
  destruct (getGitMetadata host (cwd task)) as [g|e]; cbn; [|left; reflexivity].
  unfold appendFile.
  destruct (unwritable st !! HookEngine.traceFileOf host task) as [e|];
    [left; reflexivity|].
  right. eexists. split; [reflexivity|]. cbn. split; [split; assumption|reflexivity].
Qed.

(** The cases of the post-action hook. *)
Lemma postToolExecution_cases (st : State) (task : Task) (params : Params)
    (result : jsval) (toolName : string) :
  snd (HookEngine.postToolExecution host toolName params result task st)
  = addConsole st [postLogLine toolName]
  \/ (toolName = "select_active_intent" /\ truthy (p_intent_id params) = true
      /\ HookEngine.postToolExecution host toolName params result task st
         = (Ok tt,
            addConsole (withBinding st (taskId task) (p_intent_id params))
              [postLogLine toolName; setIntentLine (p_intent_id params) task]))
  \/ (toolName = "write_to_file"
      /\ exists entry,
           HookEngine.postToolExecution host toolName params result task st
           = (Ok tt,
              withAppended (addConsole st [postLogLine toolName])
                (HookEngine.traceFileOf host task) entry)
           /\ boundTo st task (intent_id entry)
           /\ result_summary entry
              = match result with
                | JStr r => substring 0 100 r
                | _ => "Result too large/complex"
                end).
Proof.
  destruct (String.eqb toolName "select_active_intent") eqn:Hs.
  - apply String.eqb_eq in Hs. subst toolName.
    destruct (truthy (p_intent_id params)) eqn:Ht.
    + right. left. split; [reflexivity|]. split; [reflexivity|].
      unfold HookEngine.postToolExecution, bind, console_log, console_emit,
        activeIntents_set.
      cbn. rewrite Ht. cbn. unfold addConsole, withBinding. cbn.
      rewrite <- app_assoc. reflexivity.
    + left. rewrite (postToolExecution_select_falsy host st task params result Ht).
      reflexivity.
  - destruct (String.eqb toolName "write_to_file") eqn:Hw.
    + apply String.eqb_eq in Hw. subst toolName.
      rewrite postToolExecution_write.
      destruct (traceAction_cases (addConsole st [postLogLine "write_to_file"])
                  task params result "write_to_file") as [H|(entry & H & Hb & Hr)].
      * left. exact H.
      * right. right. split; [reflexivity|]. exists entry.
        split; [exact H|]. split; [exact Hb|exact Hr].
    + left.
      unfold HookEngine.postToolExecution, bind, console_log, console_emit.
      cbn. rewrite Hs, Hw. reflexivity.
Qed.

End Frames.

Section Agreement.

Variable host : Host.

Lemma preToolExecution_outcome_agrees (st1 st2 : State) (task : Task)
    (params : Params) (toolName : string) :
  activeIntents st1 !! taskId task = activeIntents st2 !! taskId task ->
  files st1 = files st2 ->
  fst (HookEngine.preToolExecution host toolName params task st1)
  = fst (HookEngine.preToolExecution host toolName params task st2).
Proof.
  intros Hreg Hfiles.
  destruct (String.eqb toolName "write_to_file") eqn:Hn.
  - apply String.eqb_eq in Hn. subst toolName.
    destruct (truthy (default JUndefined (activeIntents st1 !! taskId task))) eqn:Ht.
    + destruct (activeIntents st1 !! taskId task) as [v|] eqn:Hb; [|discriminate].
      rewrite (preToolExecution_bound host st1 task params v) by (split; assumption).
      rewrite (preToolExecution_bound host st2 task params v)
        by (split; [symmetry; exact Hreg | exact Ht]).
      apply enforceScope_outcome_files. exact Hfiles.
    + rewrite (preToolExecution_unbound host st1 task params Ht).
      rewrite (preToolExecution_unbound host st2 task params)
        by (unfold unbound; rewrite <- Hreg; exact Ht).
      reflexivity.
  - rewrite (preToolExecution_other host st1 task params toolName Hn).
    rewrite (preToolExecution_other host st2 task params toolName Hn).
    reflexivity.
Qed.

Lemma postToolExecution_files (st : State) (task : Task) (params : Params)
    (result : jsval) (toolName : string) :
  files (snd (HookEngine.postToolExecution host toolName params result task st))
  = files st.
Proof.
  destruct (postToolExecution_cases host st task params result toolName)
    as [H|[(_ & _ & H)|(_ & entry & H & _)]]; rewrite H; reflexivity.
Qed.

Lemma postToolExecution_other_sessions (st : State) (task : Task)
    (params : Params) (result : jsval) (toolName k : string) :
  k <> taskId task ->
  activeIntents
    (snd (HookEngine.postToolExecution host toolName params result task st)) !! k
  = activeIntents st !! k.
Proof.
  intros Hk.
  destruct (postToolExecution_cases host st task params result toolName)
    as [H|[(_ & _ & H)|(_ & entry & H & _)]]; rewrite H; cbn; try reflexivity.
  apply lookup_insert_ne. congruence.
Qed.

End Agreement.

(** ** The pre-action hook *)

(** X1: a tool other than [write_to_file] passes the pre-action hook
    unchecked, whatever the session is bound to and whatever the store
    holds: the hook writes its console line and returns. *)
Theorem other_tools_pass_unchecked (host : Host) (st : State) (task : Task)
    (params : Params) (toolName : string) :
  toolName <> "write_to_file" ->
  HookEngine.preToolExecution host toolName params task st
  = (Ok tt, addConsole st [preLogLine toolName]).
Proof.
  intros Hn. apply preToolExecution_other.
  apply String.eqb_neq. exact Hn.
Qed.

Lemma other_tools_pass_unchecked_witness :
  boundTo (Demo.bound "INT-003" (Demo.withStore Demo.intentsYaml)) Demo.mockTask
    (JStr "INT-003")
  /\ fst (HookEngine.preToolExecution Demo.node "execute_command"
            (Demo.write "/mock/cwd/package.json" JUndefined) Demo.mockTask
            (Demo.bound "INT-003" (Demo.withStore Demo.intentsYaml))) = Ok tt.
Proof.
  split; [split; vm_compute; reflexivity|].
  rewrite (other_tools_pass_unchecked Demo.node _ Demo.mockTask
             (Demo.write "/mock/cwd/package.json" JUndefined) "execute_command").
  - reflexivity.
  - discriminate.
Defined.

(** X2: the pre-action hook throws only a scope violation: if it throws,
    the tool is [write_to_file], the session is bound, the store file
    exists, the message of the error begins with [Scope Violation], and
    the hook has written its one console line and nothing else. *)
Theorem denial_is_a_scope_violation (host : Host) (st : State) (task : Task)
    (params : Params) (toolName : string) (e : js_error) :
  fst (HookEngine.preToolExecution host toolName params task st) = Throw e ->
  toolName = "write_to_file"
  /\ (exists v, boundTo st task v)
  /\ is_Some (files st !! HookEngine.intentsPathOf host task)
  /\ startsWith (message e) "Scope Violation" = true
  /\ snd (HookEngine.preToolExecution host toolName params task st)
     = addConsole st [preLogLine "write_to_file"].
Proof.
  destruct (preToolExecution_cases host st task params toolName)
    as [(_ & H)|[(_ & _ & H)|(Hn & v & Hb & H)]]; rewrite H; cbn;
    try discriminate.
  intros He.
  destruct (enforceScope_throws host _ task v (p_path params) e He)
    as (Hm & Hf & Hs).
  split; [exact Hn|]. split; [eauto|]. split; [exact Hf|]. split; [exact Hm|exact Hs].
Qed.

Lemma denial_is_a_scope_violation_witness :
  fst (HookEngine.preToolExecution Demo.node "write_to_file"
         (Demo.write "/mock/cwd/package.json" JUndefined) Demo.mockTask
         (Demo.bound "INT-001" (Demo.withStore Demo.intentsYaml)))
  = Throw (scopeViolationError (JStr "INT-001") "package.json"
             ["src/hooks/"; "docs/README.md"])
  /\ snd (HookEngine.preToolExecution Demo.node "write_to_file"
            (Demo.write "/mock/cwd/package.json" JUndefined) Demo.mockTask
            (Demo.bound "INT-001" (Demo.withStore Demo.intentsYaml)))
     = addConsole (Demo.bound "INT-001" (Demo.withStore Demo.intentsYaml))
         [preLogLine "write_to_file"].
Proof.
  assert (He : fst (HookEngine.preToolExecution Demo.node "write_to_file"
                      (Demo.write "/mock/cwd/package.json" JUndefined) Demo.mockTask
                      (Demo.bound "INT-001" (Demo.withStore Demo.intentsYaml)))
               = Throw (scopeViolationError (JStr "INT-001") "package.json"
                          ["src/hooks/"; "docs/README.md"])).
  { vm_compute. reflexivity. }
  split; [exact He|].
  exact (proj2 (proj2 (proj2 (proj2
           (denial_is_a_scope_violation Demo.node _ Demo.mockTask _ _ _ He))))).
Defined.

(** X3: the decision of the pre-action hook depends on the binding of the
    session and on the files only: in two states that agree on both, the
    hook returns the same outcome, whatever the console, the trace, the
    clock and the other sessions hold. *)
Theorem decision_depends_on_binding_and_files (host : Host) (st1 st2 : State)
    (task : Task) (params : Params) (toolName : string) :
  activeIntents st1 !! taskId task = activeIntents st2 !! taskId task ->
  files st1 = files st2 ->
  fst (HookEngine.preToolExecution host toolName params task st1)
  = fst (HookEngine.preToolExecution host toolName params task st2).
Proof. apply preToolExecution_outcome_agrees. Qed.

Lemma decision_depends_on_binding_and_files_witness :
  fst (HookEngine.preToolExecution Demo.node "write_to_file"
         (Demo.write "/mock/cwd/package.json" JUndefined) Demo.mockTask
         (Demo.bound "INT-001" (Demo.withStore Demo.intentsYaml)))
  = fst (HookEngine.preToolExecution Demo.node "write_to_file"
           (Demo.write "/mock/cwd/package.json" JUndefined) Demo.mockTask
           (snd (HookEngine.postToolExecution Demo.node "write_to_file"
                   (Demo.write "/mock/cwd/src/hooks/a.ts" (JStr "a"))
                   (JStr "File written") Demo.mockTask
                   (Demo.bound "INT-001" (Demo.withStore Demo.intentsYaml))))).
Proof.
  apply (decision_depends_on_binding_and_files Demo.node); vm_compute; reflexivity.
Defined.

(** X4: the pre-action hook writes to the console and to nothing else:
    after it, whatever it returned, the registry, the files, the trace and
    the callbacks' records are as before, and the console has grown at its
    end. *)
Theorem pre_hook_writes_console_only (host : Host) (st : State) (task : Task)
    (params : Params) (toolName : string) :
  exists ls,
    console (snd (HookEngine.preToolExecution host toolName params task st))
    = (console st ++ ls)%list
    /\ activeIntents (snd (HookEngine.preToolExecution host toolName params task st))
       = activeIntents st
    /\ files (snd (HookEngine.preToolExecution host toolName params task st))
       = files st
    /\ appended (snd (HookEngine.preToolExecution host toolName params task st))
       = appended st
    /\ toolResults (snd (HookEngine.preToolExecution host toolName params task st))
       = toolResults st
    /\ handledErrors (snd (HookEngine.preToolExecution host toolName params task st))
       = handledErrors st.
Proof.
  destruct (preToolExecution_frame host st task params toolName) as [ls Hls].
  exists ls. rewrite Hls. repeat split; reflexivity.
Qed.

(** X5: what another session does at the post-action hook never changes
    the decision for this session: after any [postToolExecution] of a task
    with a different id, the pre-action hook returns what it returned
    before. *)
Theorem other_session_leaves_decision (host : Host) (st : State)
    (task other : Task) (params params' : Params) (result : jsval)
    (toolName toolName' : string) :
  taskId other <> taskId task ->
  fst (HookEngine.preToolExecution host toolName params task
         (snd (HookEngine.postToolExecution host toolName' params' result other st)))
  = fst (HookEngine.preToolExecution host toolName params task st).
Proof.
  intros Hne. apply preToolExecution_outcome_agrees.
  - apply postToolExecution_other_sessions. congruence.
  - apply postToolExecution_files.
Qed.

Lemma other_session_leaves_decision_witness :
  fst (HookEngine.preToolExecution Demo.node "write_to_file"
         (Demo.write "/mock/cwd/package.json" JUndefined) Demo.mockTask
         (snd (HookEngine.postToolExecution Demo.node "select_active_intent"
                 (mkParams JUndefined JUndefined (JStr "INT-002")) (JStr "Selected")
                 (mkTask "other-task-id" "/mock/cwd")
                 (Demo.bound "INT-001" (Demo.withStore Demo.intentsYaml)))))
  = fst (HookEngine.preToolExecution Demo.node "write_to_file"
           (Demo.write "/mock/cwd/package.json" JUndefined) Demo.mockTask
           (Demo.bound "INT-001" (Demo.withStore Demo.intentsYaml))).
Proof.
  apply (other_session_leaves_decision Demo.node). discriminate.
Defined.

(** ** The post-action hook: the registry *)

Lemma substring_length_le (n : nat) (s : string) :
  String.length (substring 0 n s) <= n.
Proof.
  revert s. induction n as [|n IH]; intros s.
  - destruct s; cbn; lia.
  - destruct s as [|c s]; cbn; [lia|]. specialize (IH s). lia.
Qed.

Lemma postToolExecution_select_truthy (host : Host) (st : State) (task : Task)
    (params : Params) (result : jsval) :
  truthy (p_intent_id params) = true ->
  HookEngine.postToolExecution host "select_active_intent" params result task st
  = (Ok tt,
     addConsole (withBinding st (taskId task) (p_intent_id params))
       [postLogLine "select_active_intent"; setIntentLine (p_intent_id params) task]).
Proof.
  intros Ht.
  unfold HookEngine.postToolExecution, bind, console_log, console_emit,
    activeIntents_set.
  cbn. rewrite Ht. cbn. unfold addConsole, withBinding. cbn.
  rewrite <- app_assoc. reflexivity.
Qed.

(** X6: a select-intent with a truthy id binds the session of the task to
    that id: the hook returns, the session reads as bound to the id, the
    binding of every other session is as before, and the files and the
    trace are untouched. *)
Theorem select_binds_session (host : Host) (st : State) (task : Task)
    (params : Params) (result : jsval) :
  truthy (p_intent_id params) = true ->
  HookEngine.postToolExecution host "select_active_intent" params result task st
  = (Ok tt,
     addConsole (withBinding st (taskId task) (p_intent_id params))
       [postLogLine "select_active_intent"; setIntentLine (p_intent_id params) task])
  /\ boundTo
       (snd (HookEngine.postToolExecution host "select_active_intent" params result
               task st))
       task (p_intent_id params)
  /\ (forall k, k <> taskId task ->
        activeIntents
          (snd (HookEngine.postToolExecution host "select_active_intent" params
                  result task st)) !! k
        = activeIntents st !! k).
Proof.
  intros Ht.
  rewrite (postToolExecution_select_truthy host st task params result Ht).
  split; [reflexivity|]. split.
  - split; [cbn; apply lookup_insert_eq | exact Ht].
  - intros k Hk. cbn. apply lookup_insert_ne. congruence.
Qed.

Lemma select_binds_session_witness :
  truthy (JStr "INT-002") = true
  /\ boundTo
       (snd (HookEngine.postToolExecution Demo.node "select_active_intent"
               (mkParams JUndefined JUndefined (JStr "INT-002")) (JStr "Selected")
               Demo.mockTask (Demo.bound "INT-001" (Demo.withStore Demo.intentsYaml))))
       Demo.mockTask (JStr "INT-002").
Proof.
  split; [reflexivity|].
  apply (select_binds_session Demo.node
           (Demo.bound "INT-001" (Demo.withStore Demo.intentsYaml)) Demo.mockTask
           (mkParams JUndefined JUndefined (JStr "INT-002")) (JStr "Selected")).
  reflexivity.
Defined.

(** X7: selecting again overwrites, and keeps no history: after a
    select-intent with any id followed by one with a truthy id, the registry
    is the one a single select-intent with the second id leaves.  Selecting
    the same id twice is selecting it once. *)
Theorem reselection_overwrites (host : Host) (st : State) (task : Task)
    (first second : Params) (r1 r2 : jsval) :
  truthy (p_intent_id second) = true ->
  activeIntents
    (snd (HookEngine.postToolExecution host "select_active_intent" second r2 task
            (snd (HookEngine.postToolExecution host "select_active_intent" first r1
                    task st))))
  = activeIntents
      (snd (HookEngine.postToolExecution host "select_active_intent" second r2 task
              st)).
Proof.
  intros Ht2.
  rewrite (postToolExecution_select_truthy host _ task second r2 Ht2).
  rewrite (postToolExecution_select_truthy host st task second r2 Ht2).
  cbn [snd activeIntents addConsole withBinding].
  destruct (truthy (p_intent_id first)) eqn:Ht1.
  - rewrite (postToolExecution_select_truthy host st task first r1 Ht1).
    cbn [snd activeIntents addConsole withBinding].
    apply insert_insert_eq.
  - rewrite (postToolExecution_select_falsy host st task first r1 Ht1). reflexivity.
Qed.

Lemma reselection_overwrites_witness :
  truthy (JStr "INT-002") = true
  /\ activeIntents
       (snd (HookEngine.postToolExecution Demo.node "select_active_intent"
               (mkParams JUndefined JUndefined (JStr "INT-002")) (JStr "Selected")
               Demo.mockTask
               (snd (HookEngine.postToolExecution Demo.node "select_active_intent"
                       (mkParams JUndefined JUndefined (JStr "INT-001"))
                       (JStr "Selected") Demo.mockTask
                       (Demo.withStore Demo.intentsYaml)))))
     = activeIntents
         (snd (HookEngine.postToolExecution Demo.node "select_active_intent"
                 (mkParams JUndefined JUndefined (JStr "INT-002")) (JStr "Selected")
                 Demo.mockTask (Demo.withStore Demo.intentsYaml))).
Proof.
  split; [reflexivity|].
  apply (reselection_overwrites Demo.node (Demo.withStore Demo.intentsYaml)
           Demo.mockTask (mkParams JUndefined JUndefined (JStr "INT-001"))
           (mkParams JUndefined JUndefined (JStr "INT-002"))).
  reflexivity.
Defined.

(** ** The post-action hook: the trace *)

Section TraceLog.

Variable host : Host.

Lemma recordsAt_withAppended (st : State) (file p : string) (entry : TraceEntry) :
  recordsAt (withAppended st file entry) p
  = if decide (file = p) then (recordsAt st p ++ [entry])%list else recordsAt st p.
Proof.
  unfold recordsAt, withAppended. cbn.
  destruct (decide (file = p)) as [->|Hne].
  - rewrite lookup_insert_eq. reflexivity.
  - rewrite lookup_insert_ne by exact Hne. reflexivity.
Qed.

Lemma postToolExecution_records (st : State) (task : Task) (params : Params)
    (result : jsval) (toolName p : string) :
  recordsAt (snd (HookEngine.postToolExecution host toolName params result task st)) p
  = recordsAt st p
  \/ exists entry,
       recordsAt
         (snd (HookEngine.postToolExecution host toolName params result task st)) p
       = (recordsAt st p ++ [entry])%list
       /\ p = HookEngine.traceFileOf host task
       /\ toolName = "write_to_file"
       /\ boundTo st task (intent_id entry)
       /\ String.length (result_summary entry) <= 100.
Proof.
  destruct (postToolExecution_cases host st task params result toolName)
    as [H|[(_ & _ & H)|(Hw & entry & H & Hb & Hr)]]; rewrite H; cbn [snd].
  - left. reflexivity.
  - left. reflexivity.
  - rewrite recordsAt_withAppended.
    destruct (decide (HookEngine.traceFileOf host task = p)) as [<-|Hne];
      [|left; reflexivity].
    right. exists entry. split; [reflexivity|]. split; [reflexivity|].
    split; [exact Hw|]. split; [exact Hb|].
    rewrite Hr. destruct result; cbn; try lia. apply substring_length_le.
Qed.

End TraceLog.

(** X8: the trace is append-only under the post-action hook: for every tool,
    parameters and result, the records of every file after the hook begin
    with the records it held before, and at most one record was added. *)
Theorem trace_is_append_only (host : Host) (st : State) (task : Task)
    (params : Params) (result : jsval) (toolName p : string) :
  recordsAt st p
    `prefix_of`
    recordsAt (snd (HookEngine.postToolExecution host toolName params result task st)) p
  /\ length
       (recordsAt
          (snd (HookEngine.postToolExecution host toolName params result task st)) p)
     <= S (length (recordsAt st p)).
Proof.
  destruct (postToolExecution_records host st task params result toolName p)
    as [H|(entry & H & _)]; rewrite H.
  - split; [reflexivity | lia].
  - split; [apply prefix_app_r; reflexivity|]. rewrite length_app. cbn. lia.
Qed.

(** X9: only a [write_to_file] of a bound session is traced, and only in the
    trace file of its task: if the post-action hook changed the records of a
    file, the tool is [write_to_file], the file is [agent_trace.jsonl] under
    the [.orchestration] directory of the task, and the session was bound. *)
Theorem only_bound_writes_are_traced (host : Host) (st : State) (task : Task)
    (params : Params) (result : jsval) (toolName p : string) :
  recordsAt (snd (HookEngine.postToolExecution host toolName params result task st)) p
  <> recordsAt st p ->
  toolName = "write_to_file"
  /\ p = HookEngine.traceFileOf host task
  /\ exists v, boundTo st task v.
Proof.
  intros Hne.
  destruct (postToolExecution_records host st task params result toolName p)
    as [H|(entry & _ & Hp & Hw & Hb & _)]; [contradiction|].
  split; [exact Hw|]. split; [exact Hp|]. eauto.
Qed.

Lemma only_bound_writes_are_traced_witness :
  recordsAt
    (snd (HookEngine.postToolExecution Demo.node "write_to_file"
            (Demo.write "/mock/cwd/src/hooks/test.ts" (JStr "const x = 1;"))
            (JStr "File written") Demo.mockTask
            (Demo.bound "INT-001" (Demo.withStore Demo.intentsYaml))))
    Demo.tracePath
  <> recordsAt (Demo.bound "INT-001" (Demo.withStore Demo.intentsYaml)) Demo.tracePath
  /\ Demo.tracePath = HookEngine.traceFileOf Demo.node Demo.mockTask.
Proof.
  assert (Hne : recordsAt
                  (snd (HookEngine.postToolExecution Demo.node "write_to_file"
                          (Demo.write "/mock/cwd/src/hooks/test.ts" (JStr "const x = 1;"))
                          (JStr "File written") Demo.mockTask
                          (Demo.bound "INT-001" (Demo.withStore Demo.intentsYaml))))
                  Demo.tracePath
                <> recordsAt (Demo.bound "INT-001" (Demo.withStore Demo.intentsYaml))
                     Demo.tracePath).
  { vm_compute. discriminate. }
  split; [exact Hne|].
  exact (proj1 (proj2 (only_bound_writes_are_traced Demo.node _ Demo.mockTask _ _ _ _
                         Hne))).
Defined.

(** X10: the result summary of a trace record is bounded: every record
    the post-action hook adds has a [result_summary] of at most 100
    characters, whatever the result of the tool was. *)
Theorem result_summary_is_bounded (host : Host) (st : State) (task : Task)
    (params : Params) (result : jsval) (toolName p : string) (entry : TraceEntry) :
  entry ∈ recordsAt
            (snd (HookEngine.postToolExecution host toolName params result task st)) p ->
  entry ∈ recordsAt st p \/ String.length (result_summary entry) <= 100.
Proof.
  destruct (postToolExecution_records host st task params result toolName p)
    as [H|(entry' & H & _ & _ & _ & Hlen)]; rewrite H.
  - intros Hin. left. exact Hin.
  - intros Hin. apply elem_of_app in Hin. destruct Hin as [Hin|Hin].
    + left. exact Hin.
    + right. apply list_elem_of_singleton in Hin. subst. exact Hlen.
Qed.

Lemma result_summary_is_bounded_witness :
  mkTrace "2026-02-20T10:00:00.000Z" (JStr "INT-001") "write_to_file"
    (JStr "test.ts")
    "3f41cbb303012f33212c92326b27f6cc604fd414e20315cb10f2be7f1f6bb83c"
    "File written"
    "3f41cbb303012f33212c92326b27f6cc604fd414e20315cb10f2be7f1f6bb83c"
    (mkGit "main" "0000000")
  ∈ recordsAt
      (snd (HookEngine.postToolExecution Demo.node "write_to_file"
              (Demo.write "test.ts" (JStr "const x = 1;")) (JStr "File written")
              Demo.mockTask (Demo.bound "INT-001" Demo.withoutStore)))
      Demo.tracePath
  /\ (mkTrace "2026-02-20T10:00:00.000Z" (JStr "INT-001") "write_to_file"
        (JStr "test.ts")
        "3f41cbb303012f33212c92326b27f6cc604fd414e20315cb10f2be7f1f6bb83c"
        "File written"
        "3f41cbb303012f33212c92326b27f6cc604fd414e20315cb10f2be7f1f6bb83c"
        (mkGit "main" "0000000")
      ∈ recordsAt (Demo.bound "INT-001" Demo.withoutStore) Demo.tracePath
      \/ String.length "File written" <= 100).
Proof.
  assert (Hin : mkTrace "2026-02-20T10:00:00.000Z" (JStr "INT-001") "write_to_file"
                  (JStr "test.ts")
                  "3f41cbb303012f33212c92326b27f6cc604fd414e20315cb10f2be7f1f6bb83c"
                  "File written"
                  "3f41cbb303012f33212c92326b27f6cc604fd414e20315cb10f2be7f1f6bb83c"
                  (mkGit "main" "0000000")
                ∈ recordsAt
                    (snd (HookEngine.postToolExecution Demo.node "write_to_file"
                            (Demo.write "test.ts" (JStr "const x = 1;"))
                            (JStr "File written") Demo.mockTask
                            (Demo.bound "INT-001" Demo.withoutStore)))
                    Demo.tracePath).
  { replace (recordsAt _ Demo.tracePath)
      with [mkTrace "2026-02-20T10:00:00.000Z" (JStr "INT-001") "write_to_file"
              (JStr "test.ts")
              "3f41cbb303012f33212c92326b27f6cc604fd414e20315cb10f2be7f1f6bb83c"
              "File written"
              "3f41cbb303012f33212c92326b27f6cc604fd414e20315cb10f2be7f1f6bb83c"
              (mkGit "main" "0000000")]
      by (vm_compute; reflexivity).
    constructor. }
  split; [exact Hin|].
  exact (result_summary_is_bounded Demo.node _ Demo.mockTask _ _ _ _ _ Hin).
Defined.

(** ** The select-intent tool *)

Section SelectTool.

Variable host : Host.

Lemma includes_nil (s : string) : includes s "" = true.
Proof. destruct s; reflexivity. Qed.

(** The four ways [execute] ends. *)
Lemma execute_cases (st : State) (task : Task) (params : Params) :
  (files st !! HookEngine.intentsPathOf host task = None
   /\ SelectActiveIntentTool.execute host params task st
      = (Ok tt, addHandledError st "selecting active intent" noStoreError))
  \/ exists content,
       files st !! HookEngine.intentsPathOf host task = Some content
       /\ ((includes content (to_string (p_intent_id params)) = false
            /\ SelectActiveIntentTool.execute host params task st
               = (Ok tt,
                  addHandledError st "selecting active intent"
                    (idNotFoundError (p_intent_id params))))
           \/ (includes content (to_string (p_intent_id params)) = true
               /\ truthy (p_intent_id params) = true
               /\ SelectActiveIntentTool.execute host params task st
                  = (Ok tt,
                     addConsole
                       (withBinding
                          (addToolResult st
                             (SelectActiveIntentTool.contextBlockOf content))
                          (taskId task) (p_intent_id params))
                       [postLogLine "select_active_intent";
                        setIntentLine (p_intent_id params) task]))
           \/ (includes content (to_string (p_intent_id params)) = true
               /\ truthy (p_intent_id params) = false
               /\ SelectActiveIntentTool.execute host params task st
                  = (Ok tt,
                     addConsole
                       (addToolResult st
                          (SelectActiveIntentTool.contextBlockOf content))
                       [postLogLine "select_active_intent"]))).
Proof.
  destruct (files st !! HookEngine.intentsPathOf host task) as [content|] eqn:Hf.
  - right. exists content. split; [reflexivity|].
    rewrite (execute_present host st task params content Hf).
    unfold try_catch.
    destruct (includes content (to_string (p_intent_id params))) eqn:Hin;
      cbn [negb].
    + right. unfold bind, SelectActiveIntentTool.pushToolResult.
      fold (addToolResult st (SelectActiveIntentTool.contextBlockOf content)).
      destruct (truthy (p_intent_id params)) eqn:Ht.
      * left. split; [reflexivity|]. split; [reflexivity|].
        rewrite (postToolExecution_select_truthy host
                   (addToolResult st (SelectActiveIntentTool.contextBlockOf content))
                   task params
                   (JStr (SelectActiveIntentTool.contextBlockOf content)) Ht).
        reflexivity.
      * right. split; [reflexivity|]. split; [reflexivity|].
        rewrite (postToolExecution_select_falsy host
                   (addToolResult st (SelectActiveIntentTool.contextBlockOf content))
                   task params
                   (JStr (SelectActiveIntentTool.contextBlockOf content)) Ht).
        reflexivity.
    + left. split; [reflexivity|]. reflexivity.
  - left. split; [reflexivity|]. apply execute_absent. exact Hf.
Qed.

End SelectTool.

(** X11: the select-intent tool never throws: every failure goes to
    [handleError].  Each call ends in exactly one of two ways: one context
    block is returned and no error handled, or one error is handled, no
    block is returned and the registry is as before.  The files and the
    trace are untouched either way. *)
Theorem select_reports_and_never_throws (host : Host) (st : State) (task : Task)
    (params : Params) :
  fst (SelectActiveIntentTool.execute host params task st) = Ok tt
  /\ files (snd (SelectActiveIntentTool.execute host params task st)) = files st
  /\ appended (snd (SelectActiveIntentTool.execute host params task st)) = appended st
  /\ ((exists block,
         toolResults (snd (SelectActiveIntentTool.execute host params task st))
         = (toolResults st ++ [block])%list
         /\ handledErrors (snd (SelectActiveIntentTool.execute host params task st))
            = handledErrors st)
      \/ (exists e,
            handledErrors (snd (SelectActiveIntentTool.execute host params task st))
            = (handledErrors st ++ [("selecting active intent", e)])%list
            /\ toolResults (snd (SelectActiveIntentTool.execute host params task st))
               = toolResults st
            /\ activeIntents (snd (SelectActiveIntentTool.execute host params task st))
               = activeIntents st)).
Proof.
  destruct (execute_cases host st task params)
    as [(_ & H)|(content & _ & [(_ & H)|[(_ & _ & H)|(_ & _ & H)]])];
    rewrite H; cbn; repeat split; eauto 10.
Qed.

(** X12: with the store present, an id whose text does not occur in the
    file is refused: the tool hands [Intent ID <id> not found in
    active_intents.yaml] to [handleError], returns no context block and
    leaves the state otherwise as it was. *)
Theorem select_refuses_text_not_in_file (host : Host) (st : State) (task : Task)
    (params : Params) (content : string) :
  files st !! HookEngine.intentsPathOf host task = Some content ->
  includes content (to_string (p_intent_id params)) = false ->
  SelectActiveIntentTool.execute host params task st
  = (Ok tt,
     addHandledError st "selecting active intent"
       (idNotFoundError (p_intent_id params))).
Proof.
  intros Hf Hin.
  destruct (execute_cases host st task params)
    as [(Hf' & _)|(content' & Hf' & [(_ & H)|[(Hin' & _)|(Hin' & _)]])];
    try congruence.
Qed.

Lemma select_refuses_text_not_in_file_witness :
  files (Demo.withStore Demo.intentsYaml)
    !! HookEngine.intentsPathOf Demo.node Demo.mockTask = Some Demo.intentsYaml
  /\ includes Demo.intentsYaml "INT-999" = false
  /\ SelectActiveIntentTool.execute Demo.node
       (mkParams JUndefined JUndefined (JStr "INT-999")) Demo.mockTask
       (Demo.withStore Demo.intentsYaml)
     = (Ok tt,
        addHandledError (Demo.withStore Demo.intentsYaml) "selecting active intent"
          (idNotFoundError (JStr "INT-999"))).
Proof.
  assert (Hf : files (Demo.withStore Demo.intentsYaml)
                 !! HookEngine.intentsPathOf Demo.node Demo.mockTask
               = Some Demo.intentsYaml) by (vm_compute; reflexivity).
  assert (Hin : includes Demo.intentsYaml "INT-999" = false)
    by (vm_compute; reflexivity).
  split; [exact Hf|]. split; [exact Hin|].
  exact (select_refuses_text_not_in_file Demo.node _ Demo.mockTask
           (mkParams JUndefined JUndefined (JStr "INT-999")) _ Hf Hin).
Defined.

(** X13: a select-intent with a falsy id whose text occurs in the file (the
    empty string occurs in every file) is reported as a success and binds
    nothing: the whole file comes back as the context block, no error is
    handled, and the registry is as before. *)
Theorem select_falsy_id_returns_block_unbound (host : Host) (st : State)
    (task : Task) (params : Params) (content : string) :
  files st !! HookEngine.intentsPathOf host task = Some content ->
  truthy (p_intent_id params) = false ->
  p_intent_id params = JStr ""
  \/ includes content (to_string (p_intent_id params)) = true ->
  SelectActiveIntentTool.execute host params task st
  = (Ok tt,
     addConsole (addToolResult st (SelectActiveIntentTool.contextBlockOf content))
       [postLogLine "select_active_intent"]).
Proof.
  intros Hf Ht Hor.
  assert (Hin : includes content (to_string (p_intent_id params)) = true).
  { destruct Hor as [-> | H]; [apply includes_nil | exact H]. }
  destruct (execute_cases host st task params)
    as [(Hf' & _)|(content' & Hf' & [(Hin' & _)|[(_ & Ht' & _)|(_ & _ & H)]])];
    congruence.
Qed.

Lemma select_falsy_id_returns_block_unbound_witness :
  files (Demo.withStore Demo.intentsYaml)
    !! HookEngine.intentsPathOf Demo.node Demo.mockTask = Some Demo.intentsYaml
  /\ SelectActiveIntentTool.execute Demo.node
       (mkParams JUndefined JUndefined (JStr "")) Demo.mockTask
       (Demo.withStore Demo.intentsYaml)
     = (Ok tt,
        addConsole
          (addToolResult (Demo.withStore Demo.intentsYaml)
             (SelectActiveIntentTool.contextBlockOf Demo.intentsYaml))
          [postLogLine "select_active_intent"]).
Proof.
  assert (Hf : files (Demo.withStore Demo.intentsYaml)
                 !! HookEngine.intentsPathOf Demo.node Demo.mockTask
               = Some Demo.intentsYaml) by (vm_compute; reflexivity).
  split; [exact Hf|].
  exact (select_falsy_id_returns_block_unbound Demo.node _ Demo.mockTask
           (mkParams JUndefined JUndefined (JStr "")) _ Hf eq_refl
           (or_introl eq_refl)).
Defined.

(** ** How the tool and the hooks compose *)

(** X14: select, then write.  After the select-intent tool accepted an id
    that names an intent of the store, the pre-action hook decides a
    [write_to_file] of the same task by the scope of that intent: it allows
    the path if the scope matches and throws the scope violation if not. *)
Theorem select_then_write_checked_against_scope (host : Host) (st : State)
    (task : Task) (sel params : Params) (content intentId t : string)
    (l : list ActiveIntent) (intent : ActiveIntent) :
  files st !! HookEngine.intentsPathOf host task = Some content ->
  parseYaml host content = Ok (YamlSeq l) ->
  HookEngine.findIntent l (JStr intentId) = Some intent ->
  p_intent_id sel = JStr intentId ->
  intentId <> "" ->
  includes content intentId = true ->
  p_path params = JStr t ->
  fst (HookEngine.preToolExecution host "write_to_file" params task
         (snd (SelectActiveIntentTool.execute host sel task st)))
  = if HookEngine.isAllowed (owned_scope intent) (path_relative host (cwd task) t) t
    then Ok tt
    else Throw (scopeViolationError (JStr intentId) (path_relative host (cwd task) t)
                  (owned_scope intent)).
Proof.
  intros Hf Hp Hfind Hsel Hne Hin Hpath.
  assert (Ht : truthy (p_intent_id sel) = true).
  { rewrite Hsel. cbn. apply negb_true_iff, String.eqb_neq. exact Hne. }
  destruct (execute_cases host st task sel)
    as [(Hf' & _)|(content' & Hf' & [(Hin' & _)|[(_ & _ & H)|(_ & Ht' & _)]])];
    try congruence.
  - rewrite Hsel in Hin'. cbn in Hin'. congruence.
  - rewrite H. cbn [snd].
    rewrite (preToolExecution_bound host _ task params (p_intent_id sel))
      by (split; [cbn; apply lookup_insert_eq | exact Ht]).
    rewrite Hpath, Hsel.
    rewrite (enforceScope_resolved host _ task (JStr intentId) t l intent);
      [reflexivity | | exact Hfind].
    exists content. split; [exact Hf | exact Hp].
Qed.

Lemma select_then_write_checked_against_scope_witness :
  fst (HookEngine.preToolExecution Demo.node "write_to_file"
         (Demo.write "/mock/cwd/package.json" JUndefined) Demo.mockTask
         (snd (SelectActiveIntentTool.execute Demo.node
                 (mkParams JUndefined JUndefined (JStr "INT-001")) Demo.mockTask
                 (Demo.withStore Demo.intentsYaml))))
  = Throw (scopeViolationError (JStr "INT-001") "package.json"
             ["src/hooks/"; "docs/README.md"]).
Proof.
  rewrite (select_then_write_checked_against_scope Demo.node
             (Demo.withStore Demo.intentsYaml) Demo.mockTask
             (mkParams JUndefined JUndefined (JStr "INT-001"))
             (Demo.write "/mock/cwd/package.json" JUndefined)
             Demo.intentsYaml "INT-001" "/mock/cwd/package.json"
             [Demo.INT_001; Demo.INT_002; Demo.INT_003] Demo.INT_001);
    try (vm_compute; reflexivity).
  discriminate.
Defined.

(** X15: select, then trace.  After a select-intent with a truthy id, a
    [write_to_file] of the same task with a string content, the git helper
    returning and the storage accepting the append, adds exactly one
    record, and the record carries that id, the tool name, the path as the
    tool received it and the digest of the content.  If the storage refuses
    the append, the hook throws and adds no record. *)
Theorem select_then_trace_attributes_intent (host : Host) (st : State)
    (task : Task) (sel params : Params) (r1 result : jsval) (s : string)
    (g : GitMetadata) :
  truthy (p_intent_id sel) = true ->
  p_content params = JStr s ->
  getGitMetadata host (cwd task) = Ok g ->
  (unwritable st !! HookEngine.traceFileOf host task = None ->
   exists entry,
     recordsAt
       (snd (HookEngine.postToolExecution host "write_to_file" params result task
               (snd (HookEngine.postToolExecution host "select_active_intent" sel r1
                       task st))))
       (HookEngine.traceFileOf host task)
     = (recordsAt st (HookEngine.traceFileOf host task) ++ [entry])%list
     /\ intent_id entry = p_intent_id sel
     /\ tool entry = "write_to_file"
     /\ params_path entry = p_path params
     /\ params_content_hash entry = sha256_hex host s)
  /\ (forall e,
        unwritable st !! HookEngine.traceFileOf host task = Some e ->
        fst (HookEngine.postToolExecution host "write_to_file" params result task
               (snd (HookEngine.postToolExecution host "select_active_intent" sel r1
                       task st)))
        = Throw e
        /\ appended
             (snd (HookEngine.postToolExecution host "write_to_file" params result
                     task
                     (snd (HookEngine.postToolExecution host "select_active_intent"
                             sel r1 task st))))
           = appended st).
Proof.
  intros Ht Hc Hg.
  rewrite (postToolExecution_select_truthy host st task sel r1 Ht). cbn [snd].
  rewrite postToolExecution_write.
  assert (Hor : or_else (p_content params) (JStr "") = JStr s).
  { apply contentIs_or_else. left. exact Hc. }
  assert (Hb : boundTo
                 (addConsole
                    (addConsole (withBinding st (taskId task) (p_intent_id sel))
                       [postLogLine "select_active_intent";
                        setIntentLine (p_intent_id sel) task])
                    [postLogLine "write_to_file"])
                 task (p_intent_id sel)).
  { split; [cbn; apply lookup_insert_eq | exact Ht]. }
  split.
  - intros Hw.
    rewrite (traceAction_bound host _ task params result "write_to_file"
               (p_intent_id sel) s g Hb Hor Hg Hw).
    eexists. split.
    + cbn [snd]. rewrite recordsAt_withAppended.
      destruct (decide (HookEngine.traceFileOf host task
                        = HookEngine.traceFileOf host task)); [|contradiction].
      reflexivity.
    + cbn. repeat split; reflexivity.
  - intros e Hw.
    rewrite (proj2 (proj2 (traceAction_fails host _ task params result
                             "write_to_file" (p_intent_id sel) Hb))
               s g e Hor Hg Hw).
    split; reflexivity.
Qed.

Lemma select_then_trace_attributes_intent_witness :
  exists entry,
    recordsAt
      (snd (HookEngine.postToolExecution Demo.node "write_to_file"
              (Demo.write "/mock/cwd/src/hooks/test.ts" (JStr "const x = 1;"))
              (JStr "File written") Demo.mockTask
              (snd (HookEngine.postToolExecution Demo.node "select_active_intent"
                      (mkParams JUndefined JUndefined (JStr "INT-001"))
                      (JStr "Selected") Demo.mockTask
                      (Demo.withStore Demo.intentsYaml)))))
      (HookEngine.traceFileOf Demo.node Demo.mockTask)
    = (recordsAt (Demo.withStore Demo.intentsYaml)
         (HookEngine.traceFileOf Demo.node Demo.mockTask) ++ [entry])%list
    /\ intent_id entry = JStr "INT-001".
Proof.
  destruct (proj1 (select_then_trace_attributes_intent Demo.node
                     (Demo.withStore Demo.intentsYaml) Demo.mockTask
                     (mkParams JUndefined JUndefined (JStr "INT-001"))
                     (Demo.write "/mock/cwd/src/hooks/test.ts" (JStr "const x = 1;"))
                     (JStr "Selected") (JStr "File written") "const x = 1;"
                     (mkGit "main" "0000000") eq_refl eq_refl eq_refl) eq_refl)
    as (entry & Hrec & Hid & _).
  exists entry. split; [exact Hrec | exact Hid].
Defined.

(** X16: the registry holds truthy ids only, and the pre-action hook, the
    post-action hook and the select-intent tool keep it so: a session that
    has an entry in the registry is a bound session. *)
Theorem registry_stays_truthy (host : Host) (st : State) (task : Task)
    (params : Params) (result : jsval) (toolName : string) :
  registryTruthy st ->
  registryTruthy (snd (HookEngine.preToolExecution host toolName params task st))
  /\ registryTruthy
       (snd (HookEngine.postToolExecution host toolName params result task st))
  /\ registryTruthy (snd (SelectActiveIntentTool.execute host params task st)).
Proof.
  intros Hinv.
  assert (Hins : forall st', activeIntents st' = activeIntents st ->
                   truthy (p_intent_id params) = true ->
                   registryTruthy
                     (addConsole (withBinding st' (taskId task) (p_intent_id params))
                        [postLogLine "select_active_intent";
                         setIntentLine (p_intent_id params) task])).
  { intros st' Heq Ht k v. cbn. rewrite Heq.
    destruct (decide (taskId task = k)) as [<-|Hne].
    - rewrite lookup_insert_eq. intros [= <-]. exact Ht.
    - rewrite lookup_insert_ne by exact Hne. apply Hinv. }
  split; [|split].
  - destruct (preToolExecution_frame host st task params toolName) as [ls Hls].
    rewrite Hls. exact Hinv.
  - destruct (postToolExecution_cases host st task params result toolName)
      as [H|[(-> & Ht & H)|(_ & entry & H & _)]]; rewrite H; cbn [snd].
    + exact Hinv.
    + apply Hins; [reflexivity | exact Ht].
    + exact Hinv.
  - destruct (execute_cases host st task params)
      as [(_ & H)|(content & _ & [(_ & H)|[(_ & Ht & H)|(_ & _ & H)]])];
      rewrite H; cbn [snd]; try exact Hinv.
    apply Hins; [reflexivity | exact Ht].
Qed.

Lemma registry_stays_truthy_witness :
  registryTruthy (Demo.withStore Demo.intentsYaml)
  /\ registryTruthy
       (snd (HookEngine.postToolExecution Demo.node "select_active_intent"
               (mkParams JUndefined JUndefined (JStr "INT-001")) (JStr "Selected")
               Demo.mockTask (Demo.withStore Demo.intentsYaml))).
Proof.
  assert (H0 : registryTruthy (Demo.withStore Demo.intentsYaml)).
  { intros k v. cbn. rewrite lookup_empty. discriminate. }
  split; [exact H0|].
  exact (proj1 (proj2 (registry_stays_truthy Demo.node _ Demo.mockTask
                         (mkParams JUndefined JUndefined (JStr "INT-001"))
                         (JStr "Selected") "select_active_intent" H0))).
Defined.

(** ** The scope matcher and its error *)

Lemma includes_cons (c : ascii) (s sub : string) :
  includes (String c s) sub = String.prefix sub (String c s) || includes s sub.
Proof. reflexivity. Qed.

Lemma prefix_app_r (p s t : string) :
  String.prefix p s = true -> String.prefix p (s ++ t) = true.
Proof.
  revert s. induction p as [|c p IH]; intros s H.
  - apply prefix_nil.
  - destruct s as [|d s]; [discriminate|]. simpl in H |- *.
    destruct (Ascii.ascii_dec c d); [apply IH; exact H | discriminate].
Qed.

Lemma includes_app_r (s t sub : string) :
  includes s sub = true -> includes (s ++ t) sub = true.
Proof.
  induction s as [|c s IH]; intros H.
  - cbn in H. rewrite orb_false_r in H.
    apply includes_prefix. apply (prefix_app_r sub "" t). exact H.
  - rewrite includes_cons in H. apply orb_true_iff in H. destruct H as [H|H].
    + apply includes_prefix. apply (prefix_app_r sub (String c s) t). exact H.
    + change (String c s ++ t) with (String c (s ++ t)).
      rewrite includes_cons, (IH H). apply orb_true_r.
Qed.

Lemma includes_app_l (a s sub : string) :
  includes s sub = true -> includes (a ++ s) sub = true.
Proof.
  intros H. induction a as [|c a IH]; [exact H|].
  change (String c a ++ s) with (String c (a ++ s)).
  rewrite includes_cons, IH. apply orb_true_r.
Qed.

Lemma includes_app_here (s t : string) : includes (s ++ t) s = true.
Proof. apply includes_prefix, prefix_app. Qed.

Lemma includes_refl (s : string) : includes s s = true.
Proof. apply includes_prefix, prefix_refl. Qed.

Lemma includes_join (sep : string) (xs : list string) (x : string) :
  In x xs -> includes (join sep xs) x = true.
Proof.
  induction xs as [|y ys IH]; [intros []|].
  intros [<-|Hin].
  - destruct ys; [apply includes_refl | apply includes_app_here].
  - destruct ys as [|z zs]; [destruct Hin|].
    change (join sep (y :: z :: zs)) with (y ++ sep ++ join sep (z :: zs)).
    apply includes_app_l, includes_app_l, IH, Hin.
Qed.

Lemma isAllowed_app (s1 s2 : list string) (rel fp : string) :
  HookEngine.isAllowed (s1 ++ s2) rel fp
  = HookEngine.isAllowed s1 rel fp || HookEngine.isAllowed s2 rel fp.
Proof. unfold HookEngine.isAllowed. apply existsb_app. Qed.

(** X17: the error of a scope violation tells the agent what to correct:
    its message begins with [Scope Violation] and contains the intent id,
    the rejected path relative to the project root, and every entry of the
    owned scope, quoted as in JSON. *)
Theorem scope_violation_names_intent_path_and_scope (intentId : jsval)
    (relativePath : string) (scopes : list string) :
  startsWith (message (scopeViolationError intentId relativePath scopes))
    "Scope Violation" = true
  /\ includes (message (scopeViolationError intentId relativePath scopes))
       (to_string intentId) = true
  /\ includes (message (scopeViolationError intentId relativePath scopes))
       relativePath = true
  /\ includes (message (scopeViolationError intentId relativePath scopes))
       (JSON_stringify_strings scopes) = true
  /\ (forall scope, In scope scopes ->
        includes (message (scopeViolationError intentId relativePath scopes))
          (json_quote scope) = true).
Proof.
  unfold scopeViolationError, new_Error, HookEngine.scopeViolationMessage.
  cbn [message].
  split; [reflexivity|]. split; [|split; [|split]].
  - apply includes_app_l, includes_app_here.
  - apply includes_app_l, includes_app_l, includes_app_l, includes_app_here.
  - do 5 apply includes_app_l. apply includes_refl.
  - intros scope Hin. do 5 apply includes_app_l.
    unfold JSON_stringify_strings. apply includes_app_l, includes_app_r.
    apply includes_join, in_map. exact Hin.
Qed.

(** X18: the scope check is independent of the order of the entries: two
    scope lists that are permutations of each other authorize the same
    targets, and a list authorizes what either of its parts authorizes. *)
Theorem scope_order_is_irrelevant (scopes scopes' : list string)
    (relativePath filePath : string) :
  (scopes ≡ₚ scopes' ->
   HookEngine.isAllowed scopes relativePath filePath
   = HookEngine.isAllowed scopes' relativePath filePath)
  /\ HookEngine.isAllowed (scopes ++ scopes') relativePath filePath
     = HookEngine.isAllowed scopes relativePath filePath
       || HookEngine.isAllowed scopes' relativePath filePath.
Proof.
  split; [|apply isAllowed_app].
  intros Hperm. unfold HookEngine.isAllowed.
  induction Hperm as [|x l l' _ IH|x y l|l l' l'' _ IH1 _ IH2]; cbn.
  - reflexivity.
  - rewrite IH. reflexivity.
  - rewrite !orb_assoc.
    rewrite (orb_comm (HookEngine.scopeMatches relativePath filePath y)).
    reflexivity.
  - rewrite IH1. exact IH2.
Qed.

(** X19: a match on the path as given covers every textual extension of
    it: if an entry of the resolved intent's scope is a string prefix of the
    target path as the tool gave it, [enforceScope] allows every path made
    by appending text to that target, whatever the appended text resolves
    to, [..] segments included. *)
Theorem prefix_of_given_path_covers_extensions (host : Host) (st : State)
    (task : Task) (intentId : jsval) (t below scope : string)
    (l : list ActiveIntent) (intent : ActiveIntent) :
  storeYields host st task (Ok (YamlSeq l)) ->
  HookEngine.findIntent l intentId = Some intent ->
  In scope (owned_scope intent) ->
  String.prefix scope t = true ->
  HookEngine.enforceScope host intentId (JStr (t ++ below)) task st = (Ok tt, st).
Proof.
  intros Hstore Hfind Hin Hpre.
  rewrite (enforceScope_resolved host st task intentId (t ++ below) l intent
             Hstore Hfind).
  replace (HookEngine.isAllowed (owned_scope intent)
             (path_relative host (cwd task) (t ++ below)) (t ++ below)) with true;
    [reflexivity|].
  symmetry. apply isAllowed_true_iff. exists scope. split; [exact Hin|].
  right. apply prefix_app_r. exact Hpre.
Qed.

Lemma prefix_of_given_path_covers_extensions_witness :
  String.prefix "src/hooks/" "src/hooks/a.ts" = true
  /\ path_relative Demo.node (cwd Demo.mockTask)
       ("src/hooks/a.ts" ++ "/../../../../etc/passwd") = "../etc/passwd"
  /\ HookEngine.enforceScope Demo.node (JStr "INT-001")
       (JStr ("src/hooks/a.ts" ++ "/../../../../etc/passwd")) Demo.mockTask
       (Demo.withStore Demo.intentsYaml)
     = (Ok tt, Demo.withStore Demo.intentsYaml).
Proof.
  split; [reflexivity|]. split; [vm_compute; reflexivity|].
  apply (prefix_of_given_path_covers_extensions Demo.node
           (Demo.withStore Demo.intentsYaml) Demo.mockTask (JStr "INT-001")
           "src/hooks/a.ts" "/../../../../etc/passwd" "src/hooks/"
           [Demo.INT_001; Demo.INT_002; Demo.INT_003] Demo.INT_001).
  - exists Demo.intentsYaml. split; vm_compute; reflexivity.
  - vm_compute. reflexivity.
  - left. reflexivity.
  - reflexivity.
Defined.

(** X20: an empty string among the scope entries authorizes every target:
    with such an intent bound and resolved, the pre-action hook allows a
    [write_to_file] to any path. *)
Theorem empty_scope_entry_authorizes_everything (host : Host) (st : State)
    (task : Task) (params : Params) (intentId : jsval) (t : string)
    (l : list ActiveIntent) (intent : ActiveIntent) :
  boundTo st task intentId ->
  storeYields host st task (Ok (YamlSeq l)) ->
  HookEngine.findIntent l intentId = Some intent ->
  In "" (owned_scope intent) ->
  p_path params = JStr t ->
  HookEngine.preToolExecution host "write_to_file" params task st
  = (Ok tt, addConsole st [preLogLine "write_to_file"]).
Proof.
  intros Hb Hstore Hfind Hin Hp.
  rewrite (preToolExecution_bound host st task params intentId Hb), Hp.
  rewrite (enforceScope_resolved host _ task intentId t l intent
             (storeYields_addConsole host st task _ _ Hstore) Hfind).
  replace (HookEngine.isAllowed (owned_scope intent)
             (path_relative host (cwd task) t) t) with true; [reflexivity|].
  symmetry. apply isAllowed_true_iff. exists "". split; [exact Hin|].
  left. apply prefix_nil.
Qed.

(** X21: of several intents with the same id, the first one in the store
    decides: the scope check resolves the id to the first record that
    carries it and uses the scope of that record, whatever the later
    records with the same id own. *)
Theorem first_intent_with_id_decides (host : Host) (st : State) (task : Task)
    (intentId t : string) (before after : list ActiveIntent)
    (intent : ActiveIntent) :
  storeYields host st task (Ok (YamlSeq (before ++ intent :: after))) ->
  id intent = intentId ->
  (forall i, In i before -> id i <> intentId) ->
  HookEngine.findIntent (before ++ intent :: after) (JStr intentId) = Some intent
  /\ HookEngine.enforceScope host (JStr intentId) (JStr t) task st
     = (if HookEngine.isAllowed (owned_scope intent)
             (path_relative host (cwd task) t) t
        then Ok tt
        else Throw (scopeViolationError (JStr intentId)
                      (path_relative host (cwd task) t) (owned_scope intent)),
        st).
Proof.
  intros Hstore Hid Hbefore.
  assert (Hfind : HookEngine.findIntent (before ++ intent :: after) (JStr intentId)
                  = Some intent).
  { clear Hstore. unfold HookEngine.findIntent.
    induction before as [|i before IH]; cbn.
    - rewrite bool_decide_eq_true_2 by (rewrite Hid; reflexivity). reflexivity.
    - rewrite bool_decide_eq_false_2.
      + apply IH. intros j Hj. apply Hbefore. right. exact Hj.
      + intros [= Heq]. apply (Hbefore i); [left; reflexivity | exact Heq]. }
  split; [exact Hfind|].
  apply (enforceScope_resolved host st task (JStr intentId) t _ intent Hstore Hfind).
Qed.

Lemma scope_order_is_irrelevant_witness :
  ["src/hooks/"; "docs/README.md"] ≡ₚ ["docs/README.md"; "src/hooks/"]
  /\ HookEngine.isAllowed ["src/hooks/"; "docs/README.md"] "docs/README.md"
       "/mock/cwd/docs/README.md"
     = HookEngine.isAllowed ["docs/README.md"; "src/hooks/"] "docs/README.md"
         "/mock/cwd/docs/README.md".
Proof.
  assert (Hp : ["src/hooks/"; "docs/README.md"] ≡ₚ ["docs/README.md"; "src/hooks/"])
    by apply perm_swap.
  split; [exact Hp|].
  exact (proj1 (scope_order_is_irrelevant _ _ "docs/README.md"
                  "/mock/cwd/docs/README.md") Hp).
Defined.

Lemma empty_scope_entry_authorizes_everything_witness :
  boundTo (Demo.bound "INT-OPEN" (Demo.withStore Edge.openYaml)) Demo.mockTask
    (JStr "INT-OPEN")
  /\ In "" (owned_scope Edge.INT_OPEN)
  /\ HookEngine.preToolExecution Edge.node "write_to_file"
       (Demo.write "/etc/passwd" JUndefined) Demo.mockTask
       (Demo.bound "INT-OPEN" (Demo.withStore Edge.openYaml))
     = (Ok tt,
        addConsole (Demo.bound "INT-OPEN" (Demo.withStore Edge.openYaml))
          [preLogLine "write_to_file"]).
Proof.
  assert (Hb : boundTo (Demo.bound "INT-OPEN" (Demo.withStore Edge.openYaml))
                 Demo.mockTask (JStr "INT-OPEN")) by (split; vm_compute; reflexivity).
  assert (Hin : In "" (owned_scope Edge.INT_OPEN)) by (right; left; reflexivity).
  split; [exact Hb|]. split; [exact Hin|].
  apply (empty_scope_entry_authorizes_everything Edge.node _ Demo.mockTask
           (Demo.write "/etc/passwd" JUndefined) (JStr "INT-OPEN") "/etc/passwd"
           [Edge.INT_OPEN] Edge.INT_OPEN Hb).
  - exists Edge.openYaml. split; vm_compute; reflexivity.
  - vm_compute. reflexivity.
  - exact Hin.
  - reflexivity.
Defined.

Lemma first_intent_with_id_decides_witness :
  storeYields Edge.node (Demo.withStore Edge.repeatedYaml) Demo.mockTask
    (Ok (YamlSeq ([] ++ Edge.INT_DUP_first :: [Edge.INT_DUP_second])))
  /\ fst (HookEngine.enforceScope Edge.node (JStr "INT-DUP")
            (JStr "/mock/cwd/src/main.ts") Demo.mockTask
            (Demo.withStore Edge.repeatedYaml))
     = Throw (scopeViolationError (JStr "INT-DUP") "src/main.ts" ["docs/"]).
Proof.
  assert (Hs : storeYields Edge.node (Demo.withStore Edge.repeatedYaml) Demo.mockTask
                 (Ok (YamlSeq ([] ++ Edge.INT_DUP_first :: [Edge.INT_DUP_second])))).
  { exists Edge.repeatedYaml. split; vm_compute; reflexivity. }
  split; [exact Hs|].
  rewrite (proj2 (first_intent_with_id_decides Edge.node _ Demo.mockTask "INT-DUP"
                    "/mock/cwd/src/main.ts" [] [Edge.INT_DUP_second]
                    Edge.INT_DUP_first Hs eq_refl (fun i (H : In i []) => match H with end))).
  vm_compute. reflexivity.
Defined.

(** X22: a [write_to_file] whose [path] parameter is missing, or is not a
    string, passes the scope check of a bound and resolved intent:
    [path.relative] throws a TypeError on it, the hook writes the error to
    [console.error] and returns, and the write is allowed. *)
Theorem write_without_path_is_allowed (host : Host) (st : State) (task : Task)
    (params : Params) (intentId : jsval) (l : list ActiveIntent)
    (intent : ActiveIntent) :
  boundTo st task intentId ->
  storeYields host st task (Ok (YamlSeq l)) ->
  HookEngine.findIntent l intentId = Some intent ->
  (forall t, p_path params <> JStr t) ->
  HookEngine.preToolExecution host "write_to_file" params task st
  = (Ok tt,
     addConsole st
       [preLogLine "write_to_file";
        enforceErrorLine
          (new_TypeError "The 'to' argument must be of type string.")]).
Proof.
  intros Hb (content & Hf & Hp) Hfind Hpath.
  rewrite (preToolExecution_bound host st task params intentId Hb).
  rewrite (enforceScope_present host (addConsole st [preLogLine "write_to_file"])
             task intentId (p_path params) content Hf).
  unfold try_catch, bind, lift. rewrite Hp, Hfind.
  destruct (p_path params) as [| |b|n| |t] eqn:E; cbn;
    try (unfold console_error, console_emit, addConsole, enforceErrorLine; cbn;
         rewrite <- app_assoc; reflexivity).
  exfalso. apply (Hpath t). reflexivity.
Qed.

Lemma write_without_path_is_allowed_witness :
  boundTo (Demo.bound "INT-003" (Demo.withStore Demo.intentsYaml)) Demo.mockTask
    (JStr "INT-003")
  /\ owned_scope Demo.INT_003 = []
  /\ fst (HookEngine.preToolExecution Demo.node "write_to_file"
            (mkParams JUndefined (JStr "const x = 1;") JUndefined) Demo.mockTask
            (Demo.bound "INT-003" (Demo.withStore Demo.intentsYaml))) = Ok tt.
Proof.
  assert (Hb : boundTo (Demo.bound "INT-003" (Demo.withStore Demo.intentsYaml))
                 Demo.mockTask (JStr "INT-003")) by (split; vm_compute; reflexivity).
  split; [exact Hb|]. split; [reflexivity|].
  rewrite (write_without_path_is_allowed Demo.node _ Demo.mockTask
             (mkParams JUndefined (JStr "const x = 1;") JUndefined) (JStr "INT-003")
             [Demo.INT_001; Demo.INT_002; Demo.INT_003] Demo.INT_003 Hb).
  - reflexivity.
  - exists Demo.intentsYaml. split; vm_compute; reflexivity.
  - vm_compute. reflexivity.
  - intros t. discriminate.
Defined.

(** ** Failures of the post-action hook *)

(** X23: a post-action hook that throws has written nothing but its console
    line: no record is appended to any file and no binding is changed. *)
Theorem failed_post_hook_leaves_no_record (host : Host) (st : State) (task : Task)
    (params : Params) (result : jsval) (toolName : string) (e : js_error) :
  fst (HookEngine.postToolExecution host toolName params result task st) = Throw e ->
  snd (HookEngine.postToolExecution host toolName params result task st)
  = addConsole st [postLogLine toolName].
Proof.
  destruct (postToolExecution_cases host st task params result toolName)
    as [H|[(_ & _ & H)|(_ & entry & H & _)]].
  - intros _. exact H.
  - rewrite H. cbn. discriminate.
  - rewrite H. cbn. discriminate.
Qed.

Lemma failed_post_hook_leaves_no_record_witness :
  fst (HookEngine.postToolExecution Demo.node "write_to_file"
         (Demo.write "/mock/cwd/src/hooks/test.ts" (JNum 42)) (JStr "File written")
         Demo.mockTask (Demo.bound "INT-001" (Demo.withStore Demo.intentsYaml)))
  = Throw (new_TypeError
             "The 'data' argument must be of type string or an instance of Buffer, TypedArray, or DataView.")
  /\ snd (HookEngine.postToolExecution Demo.node "write_to_file"
            (Demo.write "/mock/cwd/src/hooks/test.ts" (JNum 42)) (JStr "File written")
            Demo.mockTask (Demo.bound "INT-001" (Demo.withStore Demo.intentsYaml)))
     = addConsole (Demo.bound "INT-001" (Demo.withStore Demo.intentsYaml))
         [postLogLine "write_to_file"].
Proof.
  assert (He : fst (HookEngine.postToolExecution Demo.node "write_to_file"
                      (Demo.write "/mock/cwd/src/hooks/test.ts" (JNum 42))
                      (JStr "File written") Demo.mockTask
                      (Demo.bound "INT-001" (Demo.withStore Demo.intentsYaml)))
               = Throw (new_TypeError
                          "The 'data' argument must be of type string or an instance of Buffer, TypedArray, or DataView."))
    by (vm_compute; reflexivity).
  split; [exact He|].
  exact (failed_post_hook_leaves_no_record Demo.node _ Demo.mockTask _ _ _ _ He).
Defined.

(** X24: only a select-intent changes the registry: if the post-action hook
    left a registry other than the one it found, the tool is
    [select_active_intent], its [intent_id] is truthy, and the registry it
    left is the one it found with the session of the task bound to that
    id. *)
Theorem registry_changes_only_on_select (host : Host) (st : State) (task : Task)
    (params : Params) (result : jsval) (toolName : string) :
  activeIntents (snd (HookEngine.postToolExecution host toolName params result task st))
  <> activeIntents st ->
  toolName = "select_active_intent"
  /\ truthy (p_intent_id params) = true
  /\ activeIntents
       (snd (HookEngine.postToolExecution host toolName params result task st))
     = <[taskId task := p_intent_id params]> (activeIntents st).
Proof.
  destruct (postToolExecution_cases host st task params result toolName)
    as [H|[(Hn & Ht & H)|(_ & entry & H & _)]]; rewrite H; cbn.
  - intros Hne. contradiction.
  - intros _. split; [exact Hn|]. split; [exact Ht|reflexivity].
  - intros Hne. contradiction.
Qed.

Lemma registry_changes_only_on_select_witness :
  activeIntents
    (snd (HookEngine.postToolExecution Demo.node "select_active_intent"
            (mkParams JUndefined JUndefined (JStr "INT-001")) (JStr "Selected")
            Demo.mockTask (Demo.withStore Demo.intentsYaml)))
  <> activeIntents (Demo.withStore Demo.intentsYaml)
  /\ activeIntents
       (snd (HookEngine.postToolExecution Demo.node "select_active_intent"
               (mkParams JUndefined JUndefined (JStr "INT-001")) (JStr "Selected")
               Demo.mockTask (Demo.withStore Demo.intentsYaml)))
     = <[taskId Demo.mockTask := JStr "INT-001"]>
         (activeIntents (Demo.withStore Demo.intentsYaml)).
Proof.
  assert (Hne : activeIntents
                  (snd (HookEngine.postToolExecution Demo.node "select_active_intent"
                          (mkParams JUndefined JUndefined (JStr "INT-001"))
                          (JStr "Selected") Demo.mockTask
                          (Demo.withStore Demo.intentsYaml)))
                <> activeIntents (Demo.withStore Demo.intentsYaml)).
  { intros Heq. apply (f_equal (fun m => m !! "test-task-id")) in Heq.
    vm_compute in Heq. discriminate. }
  split; [exact Hne|].
  exact (proj2 (proj2 (registry_changes_only_on_select Demo.node _ Demo.mockTask
                         _ _ _ Hne))).
Defined.
